(** * The end-of-block order-book filler plugin (package orderbookfiller)

    A shallow embedding of
    [ingest/usecase/plugins/orderbookfiller/ordebook_filler_ingest_plugin.go].

    The plugin talks to the chain, the router and the logger; these calls are
    threaded through an explicit plugin state.  Goroutines are run to
    completion in launch order (one admissible schedule); the 100 second
    timer and context cancellation of the result collection are not part of
    the model.  Tracing spans are ignored. *)

From stdpp Require Import base gmap strings list.
From Stdlib Require Import ZArith Lia.

Local Open Scope string_scope.
Local Open Scope list_scope.
Local Open Scope Z_scope.

(** ** Go values *)

(** A Go [error]: [None] is [nil]. *)
Definition error := option string.

(** A Go result pair [(v, err)]: either the value or a non-nil error. *)
Inductive result (A : Type) : Type :=
| Ok (a : A)
| Fail (e : string).
Arguments Ok {A} a.
Arguments Fail {A} e.

(** [uint64] arithmetic wraps around. *)
Definition u64 (z : Z) : Z := z mod 2 ^ 64.

(** [osmomath.Int] is an arbitrary precision integer ([math/big]); its
    constructors panic beyond 256 bits, far above any token amount, and the
    model takes [Z].  [osmomath.Dec] is the 18-decimal fixed point number
    [LegacyDec]: a [big.Int] holding the value times [10^18].  Go's
    [big.Int.Quo] and [QuoRem] truncate towards zero ([Z.quot], [Z.rem]). *)
Module Dec.

Definition precisionReuse : Z := 10 ^ 18.
Definition fivePrecision : Z := precisionReuse / 2.

(** [Int.ToLegacyDec] *)
Definition ToLegacyDec (i : Z) : Z := i * precisionReuse.

(** [MustNewDecFromStr] of a literal with two decimals, given in hundredths. *)
Definition ofHundredths (h : Z) : Z := h * 10 ^ 16.

Definition Add (d d2 : Z) : Z := d + d2.

(** [chopPrecisionAndRound]: divide by [10^18], banker's rounding. *)
Definition chopPrecisionAndRoundAbs (d : Z) : Z :=
  let quo := Z.quot d precisionReuse in
  let rem := Z.rem d precisionReuse in
  if rem =? 0 then quo
  else match rem ?= fivePrecision with
       | Lt => quo
       | Gt => quo + 1
       | Eq => if Z.testbit quo 0 then quo + 1 else quo
       end.

Definition chopPrecisionAndRound (d : Z) : Z :=
  if d <? 0 then - chopPrecisionAndRoundAbs (- d) else chopPrecisionAndRoundAbs d.

(** [chopPrecisionAndRoundUp]: divide by [10^18], rounding up. *)
Definition chopPrecisionAndRoundUp (d : Z) : Z :=
  if d <? 0 then - Z.quot (- d) precisionReuse
  else
    let quo := Z.quot d precisionReuse in
    if Z.rem d precisionReuse =? 0 then quo else quo + 1.

Definition MulMut (d d2 : Z) : Z := chopPrecisionAndRound (d * d2).

Definition QuoRoundupMut (d d2 : Z) : Z :=
  chopPrecisionAndRoundUp (Z.quot (d * (precisionReuse * precisionReuse)) d2).

Definition Ceil (d : Z) : Z :=
  let quo := Z.quot d precisionReuse in
  let rem := Z.rem d precisionReuse in
  if rem =? 0 then quo * precisionReuse
  else if rem <? 0 then quo * precisionReuse
  else (quo + 1) * precisionReuse.

Definition TruncateInt (d : Z) : Z := Z.quot d precisionReuse.

End Dec.

(** The Go zero value [osmomath.Int{}], which the design text calls the zero
    amount. *)
Definition IntZeroValue : Z := 0.

(** [domain.CanonicalOrderBooksResult] *)
Record CanonicalOrderBooksResult := mkOrderBook {
  Base : string;
  Quote : string;
  PoolID : Z;
  ContractAddress : string }.

(** ** Message and transaction contexts *)

(** Modelled from the spec: the Message Context type (package [msgctx]) is not
    among the sources.  It carries the target pool, the denoms and amounts,
    the fee-cap score (a [Dec], kept as its scaled integer), the low-value
    classification, the gas estimate of its simulation and the opaque
    chain-level payload. *)
Record MsgContext := mkMsg {
  msgPoolID : Z;
  msgDenomIn : string;
  msgDenomOut : string;
  msgAmountIn : Z;
  msgAmountOut : Z;
  GetMaxFeeCap : Z;
  IsLowValue : bool;
  GetAdjustedGasUsed : Z;
  GetSDKMsg : string }.

(** Modelled from the spec: the Transaction Context type (package [txctx]) is
    not among the sources.  It holds the ordered pending batch, the running
    adjusted gas total and the pool IDs that were only logged as used. *)
Record TxContext := mkTx {
  txMsgs : list MsgContext;
  adjustedGasUsedTotal : Z;
  usedPools : list Z }.

Module txctx.

(** Modelled from the spec: [txctx.New] is not among the sources; a fresh
    Transaction Context is empty. *)
Definition New : TxContext :=
  {| txMsgs := []; adjustedGasUsedTotal := 0; usedPools := [] |}.

(** Modelled from the spec: [AddMsg] is not among the sources.  Its flag is
    the partition marker of the data model: with [true] the message joins
    the pending batch (and its gas the running total), with [false] its
    pool is only logged as used, as the call site in
    [computePerfectArbAmountIfExists] documents. *)
Definition AddMsg (msg : MsgContext) (addToBatch : bool) (t : TxContext) : TxContext :=
  if addToBatch then
    {| txMsgs := txMsgs t ++ [msg];
       adjustedGasUsedTotal := u64 (adjustedGasUsedTotal t + GetAdjustedGasUsed msg);
       usedPools := usedPools t |}
  else
    {| txMsgs := txMsgs t;
       adjustedGasUsedTotal := adjustedGasUsedTotal t;
       usedPools := usedPools t ++ [msgPoolID msg] |}.

Definition GetMsgs (t : TxContext) : list MsgContext := txMsgs t.

Definition GetSDKMsgs (t : TxContext) : list string := map GetSDKMsg (txMsgs t).

Definition GetAdjustedGasUsedTotal (t : TxContext) : Z := adjustedGasUsedTotal t.

Definition UpdateAdjustedGasTotal (g : Z) (t : TxContext) : TxContext :=
  {| txMsgs := txMsgs t; adjustedGasUsedTotal := g; usedPools := usedPools t |}.

(** Ranking and filtering is a black box: [rank] is its policy. *)
Definition RankAndFilterMsgs (rank : list MsgContext -> list MsgContext) (t : TxContext) : TxContext :=
  {| txMsgs := rank (txMsgs t);
     adjustedGasUsedTotal := adjustedGasUsedTotal t;
     usedPools := usedPools t |}.

End txctx.

(** Modelled from the spec: the Block Context (package [blockctx]) is not
    among the sources: a per-block snapshot of balances, prices, gas price and
    height.  Its embedded Transaction Context is the one mutable part and
    lives in the plugin state below. *)
Record BlockCtx (Prices : Type) := mkBlockCtx {
  GetUserBalances : list (string * Z);
  GetDenomPrices : Prices;
  GetGasPrice : Z;
  GetBlockHeight : Z }.
Arguments GetUserBalances {Prices} _.
Arguments GetGasPrice {Prices} _.
Arguments GetBlockHeight {Prices} _.
Arguments mkBlockCtx {Prices} _ _ _ _.

(** [sdk.Coins.AmountOf]: the amount of the denom, zero when absent. *)
Fixpoint AmountOf (coins : list (string * Z)) (denom : string) : Z :=
  match coins with
  | [] => 0
  | (d, a) :: rest => if String.eqb d denom then a else AmountOf rest denom
  end.

(** ** Observable effects *)

Inductive Level := Debug | Info | Warn | Error.

Record TxResponse := mkResp { Code : Z; Hash : string; Log : string }.

(** Every call that leaves the plugin is recorded, in order; a validation is
    recorded with its outcome. *)
Inductive Event :=
| EvGetCanonical
| EvFetchTicks (poolID : Z)
| EvAllBalances
| EvGetPrices (denoms : list string)
| EvGasPrice
| EvFillable (poolID : Z)
| EvValidateArb (amountIn : Z) (denomIn denomOut : string) (poolID : Z)
    (outcome : result MsgContext)
| EvSimulate (sdkMsgs : list string)
| EvExecute (tx : TxContext)
| EvPrintln (a b : Z)
| EvLog (lvl : Level) (msg : string).

(** The collaborators of the plugin: each call reads and updates the outside
    world [World] and may fail.  They are handed what the source hands them;
    none of them holds the flag or the shared Transaction Context. *)
Record Externals (World Prices : Type) := mkExternals {
  (* poolsUseCase.GetAllCanonicalOrderbookPoolIDs *)
  extGetAllCanonicalOrderbookPoolIDs : World -> result (list CanonicalOrderBooksResult) * World;
  (* fetchTicksForOrderbook, another file of the package *)
  extFetchTicksForOrderbook : CanonicalOrderBooksResult -> World -> error * World;
  (* passthroughGRPCClient.AllBalances *)
  extAllBalances : World -> result (list (string * Z)) * World;
  (* tokensUseCase.GetPrices *)
  extGetPrices : list string -> World -> result Prices * World;
  (* the fallible part of blockctx.New: the gas price query *)
  extGasPrice : World -> result Z * World;
  (* validateUserBalances, another file of the package *)
  extValidateUserBalances : BlockCtx Prices -> string -> string -> error;
  (* getFillableOrders, another file of the package *)
  extGetFillableOrders : BlockCtx Prices -> CanonicalOrderBooksResult -> World -> result (Z * Z) * World;
  (* validateArb, another file of the package *)
  extValidateArb : BlockCtx Prices -> Z -> string -> string -> Z -> World -> result MsgContext * World;
  (* simulateMsgs, another file of the package *)
  extSimulateMsgs : list string -> World -> result Z * World;
  (* executeTx, another file of the package *)
  extExecuteTx : Z -> Z -> TxContext -> World -> result TxResponse * World;
  (* the ranking policy of txctx.RankAndFilterMsgs *)
  extRank : list MsgContext -> list MsgContext;
  (* orderbookplugindomain.BaseDenom *)
  BaseDenom : string }.

Arguments extGetAllCanonicalOrderbookPoolIDs {World Prices} _.
Arguments extFetchTicksForOrderbook {World Prices} _.
Arguments extAllBalances {World Prices} _.
Arguments extGetPrices {World Prices} _.
Arguments extGasPrice {World Prices} _.
Arguments extValidateUserBalances {World Prices} _.
Arguments extGetFillableOrders {World Prices} _.
Arguments extValidateArb {World Prices} _.
Arguments extSimulateMsgs {World Prices} _.
Arguments extExecuteTx {World Prices} _.
Arguments extRank {World Prices} _.
Arguments BaseDenom {World Prices} _.

(** ** Plugin state and its monad *)

(** [atomicBool] is the process-wide flag of the plugin; [txCtx] is the
    Transaction Context shared through the Block Context ([ctx.GetTxCtx()]
    returns a pointer: every holder sees the same object). *)
Record State (World : Type) := mkState {
  world : World;
  atomicBool : bool;
  txCtx : TxContext;
  events : list Event }.
Arguments mkState {World} _ _ _ _.
Arguments world {World} _.
Arguments atomicBool {World} _.
Arguments txCtx {World} _.
Arguments events {World} _.

(** A computation over the plugin state; [None] is a call that has not
    returned within the fuel it was given. *)
Definition M (World A : Type) : Type := State World -> option (A * State World).

Definition ret {World A} (a : A) : M World A := fun st => Some (a, st).

Definition bind {World A B} (m : M World A) (k : A -> M World B) : M World B :=
  fun st => match m st with
            | Some (a, st') => k a st'
            | None => None
            end.

Definition diverge {World A} : M World A := fun _ => None.

Notation "'let*' x ':=' e 'in' k" := (bind e (fun x => k))
  (at level 10, x pattern, e at level 100, k at level 200).

Section Primitives.
Context {World : Type}.

Definition emit (e : Event) : M World unit :=
  fun st => Some (tt, mkState (world st) (atomicBool st) (txCtx st) (events st ++ [e])).

Definition logger (lvl : Level) (msg : string) : M World unit := emit (EvLog lvl msg).

(** A call to a collaborator: run on the outside world and recorded. *)
Definition call {A} (e : A -> Event) (f : World -> A * World) : M World A :=
  fun st => let '(a, w) := f (world st) in
            Some (a, mkState w (atomicBool st) (txCtx st) (events st ++ [e a])).

(** [ctx.GetTxCtx()] *)
Definition GetTxCtx : M World TxContext := fun st => Some (txCtx st, st).

(** A mutating method of the shared Transaction Context. *)
Definition onTxCtx (f : TxContext -> TxContext) : M World unit :=
  fun st => Some (tt, mkState (world st) (atomicBool st) (f (txCtx st)) (events st)).

(** [atomic.Bool.CompareAndSwap] *)
Definition CompareAndSwap (old new : bool) : M World bool :=
  fun st => if Bool.eqb (atomicBool st) old
            then Some (true, mkState (world st) new (txCtx st) (events st))
            else Some (false, st).

(** [atomic.Bool.Store] *)
Definition Store (b : bool) : M World unit :=
  fun st => Some (tt, mkState (world st) b (txCtx st) (events st)).

(** A [for ... range] loop with a body that has effects. *)
Fixpoint forEach {A} (l : list A) (body : A -> M World unit) : M World unit :=
  match l with
  | [] => ret tt
  | a :: rest => let* _ := body a in forEach rest body
  end.

(** Goroutines launched from a [range] loop, run in launch order; the
    results are gathered in that order. *)
Fixpoint goEach {A B} (l : list A) (body : A -> M World (list B)) : M World (list B) :=
  match l with
  | [] => ret []
  | a :: rest =>
      let* r := body a in
      let* rs := goEach rest body in
      ret (r ++ rs)
  end.

(** [errgroup.Group.Wait]: the first non-nil error. *)
Fixpoint firstError (errs : list error) : error :=
  match errs with
  | [] => None
  | Some e :: _ => Some e
  | None :: rest => firstError rest
  end.

End Primitives.

(** ** The plugin *)

Definition maxRecursionAttemptsArbSearch : Z := 15.
Definition multiplier : Z := Dec.ofHundredths 105.
Definition two : Z := Dec.ofHundredths 200.

Section Plugin.
Context {World Prices : Type} (o : Externals World Prices).

Local Abbreviation Ctx := (BlockCtx Prices).
Local Abbreviation Mo := (M World).

Definition validateArb (ctx : Ctx) (amountIn : Z) (denomIn denomOut : string)
    (orderBookID : Z) : Mo (result MsgContext) :=
  call (EvValidateArb amountIn denomIn denomOut orderBookID)
       (extValidateArb o ctx amountIn denomIn denomOut orderBookID).

Definition simulateMsgs (sdkMsgs : list string) : Mo (result Z) :=
  call (fun _ => EvSimulate sdkMsgs) (extSimulateMsgs o sdkMsgs).

Definition executeTx (blockHeight gasPrice : Z) (tx : TxContext) : Mo (result TxResponse) :=
  call (fun _ => EvExecute tx) (extExecuteTx o blockHeight gasPrice tx).

(** [fetchTicksForModifiedOrderbooks]: one fetch per canonical pool that the
    block updated; the group's error is the first one. *)
Definition fetchTicksForModifiedOrderbooks (blockUpdatedPools : gset Z)
    (canonicalOrderbooks : list CanonicalOrderBooksResult) : Mo error :=
  let* errs := goEach canonicalOrderbooks (fun canonicalOrderbookResult =>
    if bool_decide (PoolID canonicalOrderbookResult ∈ blockUpdatedPools) then
      let* err := call (fun _ => EvFetchTicks (PoolID canonicalOrderbookResult))
                       (extFetchTicksForOrderbook o canonicalOrderbookResult) in
      match err with
      | Some e =>
          let* _ := logger Error "failed to fetch ticks for orderbook" in
          ret [Some e]
      | None => ret [None]
      end
    else ret []) in
  match firstError errs with
  | Some err => ret (Some err)
  | None => ret None
  end.

(** [getUniqueOrderbookDenoms]: the Go map used as a set is a [gset]; the
    final slice lists its keys in the map's iteration order. *)
Definition getUniqueOrderbookDenoms
    (canonicalOrderbooks : list CanonicalOrderBooksResult) : list string :=
  let uniqueDenoms : gset string :=
    foldl (fun (uniqueDenoms : gset string) canonicalOrderbook =>
             {[ Quote canonicalOrderbook ]} ∪ ({[ Base canonicalOrderbook ]} ∪ uniqueDenoms))
          ∅ canonicalOrderbooks in
  let uniqueDenoms := {[ BaseDenom o ]} ∪ uniqueDenoms in
  elements uniqueDenoms.

(** [tryValidate].  [attemptsRemaining] is a Go [int]; [fuel] bounds the
    depth of the recursion the model follows. *)
Fixpoint tryValidate (fuel : nat) (ctx : Ctx) (amountInLow amountInHigh : Z)
    (denomIn denomOut : string) (orderBookID : Z) (lowMsgCtx : MsgContext)
    (attemptsRemaining : Z) : Mo (MsgContext * Z * error) :=
  match fuel with
  | O => diverge
  | S fuel =>
      if attemptsRemaining =? 0 then ret (lowMsgCtx, amountInLow, None)
      else
        let mid :=
          Dec.TruncateInt (Dec.Ceil (Dec.QuoRoundupMut
            (Dec.Add (Dec.ToLegacyDec amountInLow) (Dec.ToLegacyDec amountInHigh)) two)) in
        (* Case 1: mid arb works => recurse into (mid, high) *)
        let* r := validateArb ctx mid denomIn denomOut orderBookID in
        let case1 :=
          match r with
          | Ok midMsgCtx =>
              if GetMaxFeeCap lowMsgCtx <=? GetMaxFeeCap midMsgCtx then Some midMsgCtx else None
          | Fail _ => None
          end in
        match case1 with
        | Some midMsgCtx =>
            tryValidate fuel ctx mid amountInHigh denomIn denomOut orderBookID midMsgCtx
                        (attemptsRemaining - 1)
        | None =>
            (* Case 2: mid arb doesn't work => recurse into (low, mid) *)
            let* res := tryValidate fuel ctx amountInLow mid denomIn denomOut orderBookID
                                    lowMsgCtx (attemptsRemaining - 1) in
            let '(topMsgCtx, topAmount, err) := res in
            match err with
            | None =>
                if GetMaxFeeCap lowMsgCtx <=? GetMaxFeeCap topMsgCtx
                then ret (topMsgCtx, topAmount, None)
                else ret (lowMsgCtx, amountInLow, None)
            | Some _ =>
                (* Case 3: all attempts failed but low arb has been validated *)
                ret (lowMsgCtx, amountInLow, None)
            end
        end
  end.

(** [fillImmediate] *)
Definition fillImmediate (ctx : Ctx) (msgCtx : MsgContext) : Mo error :=
  let immediateTxCtx := txctx.AddMsg msgCtx true txctx.New in
  let newAdjustedGasUsedTotal :=
    u64 (txctx.GetAdjustedGasUsedTotal immediateTxCtx * 110) / 100 in
  let immediateTxCtx := txctx.UpdateAdjustedGasTotal newAdjustedGasUsedTotal immediateTxCtx in
  let* r := executeTx (GetBlockHeight ctx) (GetGasPrice ctx) immediateTxCtx in
  match r with
  | Fail err => ret (Some ("failed to execute immediate fill transaction: " +:+ err))
  | Ok resp =>
      let* _ := logger Info "Executed immediate fill transaction" in
      ret None
  end.

(** The end of [computePerfectArbAmountIfExists], lines 339 to 351: what
    happens to the winning Message Context of a search. *)
Definition executeOrBatch (ctx : Ctx) (msgCtx : MsgContext) (result : Z) : Mo (Z * error) :=
  let* ierr :=
    (if negb (IsLowValue msgCtx) then
       let* ierr := fillImmediate ctx msgCtx in
       match ierr with
       | Some _ =>
           let* _ := logger Error "failed to fill high value route immediately" in
           ret ierr
       | None => ret ierr
       end
     else ret None) in
  let* _ := onTxCtx (txctx.AddMsg msgCtx (bool_decide (ierr <> None))) in
  ret (result, None).

(** [computePerfectArbAmountIfExists] *)
Definition computePerfectArbAmountIfExists (fuel : nat) (ctx : Ctx) (proposedAmountIn : Z)
    (denomIn denomOut : string) (orderBookID : Z) : Mo (Z * error) :=
  let* r := validateArb ctx proposedAmountIn denomIn denomOut orderBookID in
  match r with
  | Fail err => ret (IntZeroValue, Some err)
  | Ok msgCtx =>
      let amountInHigh :=
        Dec.TruncateInt (Dec.MulMut (Dec.ToLegacyDec proposedAmountIn) multiplier) in
      let* res := tryValidate fuel ctx proposedAmountIn amountInHigh denomIn denomOut
                              orderBookID msgCtx maxRecursionAttemptsArbSearch in
      let '(msgCtx, result, err) := res in
      match err with
      | Some _ => ret (proposedAmountIn, None)
      | None => executeOrBatch ctx msgCtx result
      end
  end.

Definition getFillableOrders (ctx : Ctx) (canonicalOrderbookResult : CanonicalOrderBooksResult)
    : Mo (result (Z * Z)) :=
  call (fun _ => EvFillable (PoolID canonicalOrderbookResult))
       (extGetFillableOrders o ctx canonicalOrderbookResult).

(** The two goroutines of [processOrderBook], lines 283 to 309: the ask
    direction, then the bid direction. *)
Definition fillBothDirections (fuel : nat) (ctx : Ctx)
    (canonicalOrderbookResult : CanonicalOrderBooksResult)
    (fillableAskAmountQuoteDenom fillableBidAmountBaseDenom : Z) : Mo error :=
  (* Validate arb trying to fill ask liquidity. *)
  let* r := computePerfectArbAmountIfExists fuel ctx fillableAskAmountQuoteDenom
              (Quote canonicalOrderbookResult) (Base canonicalOrderbookResult)
              (PoolID canonicalOrderbookResult) in
  let* _ := match snd r with
            | Some _ => logger Error "failed to fill asks"
            | None => logger Info "passed orderbook asks"
            end in
  (* Validate arb trying to fill bid liquidity *)
  let* r := computePerfectArbAmountIfExists fuel ctx fillableBidAmountBaseDenom
              (Base canonicalOrderbookResult) (Quote canonicalOrderbookResult)
              (PoolID canonicalOrderbookResult) in
  let* _ := match snd r with
            | Some _ => logger Error "failed to fill bids"
            | None => logger Info "passed orderbook bids"
            end in
  ret None.

(** [processOrderBook] *)
Definition processOrderBook (fuel : nat) (ctx : Ctx)
    (canonicalOrderbookResult : CanonicalOrderBooksResult) : Mo error :=
  let baseDenom := Base canonicalOrderbookResult in
  let quoteDenom := Quote canonicalOrderbookResult in
  (* Compute fillable amounts for the order book. *)
  let* r := getFillableOrders ctx canonicalOrderbookResult in
  match r with
  | Fail err => ret (Some err)
  | Ok (fillableAskAmountQuoteDenom, fillableBidAmountBaseDenom) =>
      let userBalanceQuoteDenom := AmountOf (GetUserBalances ctx) quoteDenom in
      let* fillableAskAmountQuoteDenom :=
        (if userBalanceQuoteDenom <? fillableAskAmountQuoteDenom then
           let* _ := emit (EvPrintln fillableAskAmountQuoteDenom userBalanceQuoteDenom) in
           let* _ := logger Warn "user balance less than fillable ask amount" in
           ret userBalanceQuoteDenom
         else ret fillableAskAmountQuoteDenom) in
      let userBalanceBaseDenom := AmountOf (GetUserBalances ctx) baseDenom in
      let* fillableBidAmountBaseDenom :=
        (if userBalanceBaseDenom <? fillableBidAmountBaseDenom then
           let* _ := emit (EvPrintln fillableBidAmountBaseDenom userBalanceBaseDenom) in
           let* _ := logger Warn "user balance less than fillable bid amount" in
           ret userBalanceBaseDenom
         else ret fillableBidAmountBaseDenom) in
      fillBothDirections fuel ctx canonicalOrderbookResult
                         fillableAskAmountQuoteDenom fillableBidAmountBaseDenom
  end.

(** [tryFill]: it works on the Transaction Context of the Block Context it
    is given. *)
Definition tryFill (ctx : Ctx) : Mo error :=
  let* txCtx := GetTxCtx in
  let msgs := txctx.GetSDKMsgs txCtx in
  if (length msgs =? 0)%nat then ret None
  else
    (* Rank and filter pools *)
    let* _ := onTxCtx (txctx.RankAndFilterMsgs (extRank o)) in
    (* Simulate transaction messages *)
    let* txCtx := GetTxCtx in
    let sdkMsgs := txctx.GetSDKMsgs txCtx in
    let* r := simulateMsgs sdkMsgs in
    match r with
    | Fail err => ret (Some err)
    | Ok adjustedGasAmount =>
        let* _ := onTxCtx (txctx.UpdateAdjustedGasTotal adjustedGasAmount) in
        (* Execute the swap *)
        let* txCtx := GetTxCtx in
        let* r := executeTx (GetBlockHeight ctx) (GetGasPrice ctx) txCtx in
        match r with
        | Fail err => ret (Some err)
        | Ok _ => ret None
        end
    end.

(** The end of [ProcessEndBlock], lines 171 to 196: the batch fill and its
    fallback.  [curTxCtx] is built as in the source and, as in the source,
    handed to nobody: [tryFill] receives [blockCtx]. *)
Definition fillWithFallback (blockCtx : Ctx) : Mo error :=
  let* txCtx := GetTxCtx in
  let originalMsgs := txctx.GetMsgs txCtx in
  let* err := tryFill blockCtx in
  let finish :=
    let* _ := logger Info "processed end block in orderbook filler ingest plugin" in
    ret None in
  match err with
  | Some err =>
      if (length originalMsgs =? 1)%nat then
        let* _ := logger Error "failed to fill" in
        ret (Some err)
      else
        let* _ := logger Error "failed to fill batch of arbs as one tx - falling back to executing each message as separate tx" in
        (* Try to fill each message indivdually *)
        let* _ := forEach originalMsgs (fun msg =>
          (* Create a new transaction context for each message *)
          let curTxCtx := txctx.New in
          (* Add the message to the transaction context *)
          let curTxCtx := txctx.AddMsg msg false curTxCtx in
          (* Try to fill the message *)
          let* err := tryFill blockCtx in
          match err with
          | Some _ => logger Error "failed to fill individual msg tx"
          | None => ret tt
          end) in
        finish
  | None => finish
  end.

(** Modelled from the spec: [blockctx.New] is not among the sources.  It
    queries the gas price, which may fail, and builds the per-block snapshot
    around a fresh Transaction Context. *)
Definition blockctxNew (prices : Prices) (balances : list (string * Z)) (blockHeight : Z)
    : Mo (result Ctx) :=
  let* r := call (fun _ => EvGasPrice) (extGasPrice o) in
  match r with
  | Fail err => ret (Fail err)
  | Ok gasPrice =>
      let* _ := onTxCtx (fun _ => txctx.New) in
      ret (Ok (mkBlockCtx balances prices gasPrice blockHeight))
  end.

(** [ProcessEndBlock] once the flag is held, lines 109 to 196. *)
Definition processBlockLocked (fuel : nat) (blockHeight : Z)
    (canonicalOrderbooks : list CanonicalOrderBooksResult) : Mo error :=
  (* Get unique orderbook denoms *)
  let uniqueOrderBookDenoms := getUniqueOrderbookDenoms canonicalOrderbooks in
  (* Get bot balances *)
  let* r := call (fun _ => EvAllBalances) (extAllBalances o) in
  match r with
  | Fail err => ret (Some err)
  | Ok balances =>
      let* r := call (fun _ => EvGetPrices uniqueOrderBookDenoms) (extGetPrices o uniqueOrderBookDenoms) in
      match r with
      | Fail err => ret (Some err)
      | Ok orderBookDenomPrices =>
          (* Configure block context *)
          let* r := blockctxNew orderBookDenomPrices balances blockHeight in
          match r with
          | Fail err => ret (Some err)
          | Ok blockCtx =>
              let* results := goEach canonicalOrderbooks (fun canonicalOrderbook =>
                match extValidateUserBalances o blockCtx (Base canonicalOrderbook)
                                              (Quote canonicalOrderbook) with
                | Some _ =>
                    let* _ := logger Info "Skipping orderbook due to insufficient balance" in
                    ret []
                | None =>
                    let* err := processOrderBook fuel blockCtx canonicalOrderbook in
                    ret [(err, PoolID canonicalOrderbook)]
                end) in
              (* Collect all the results *)
              let* _ := forEach results (fun result =>
                match fst result with
                | Some _ => logger Error "failed to process orderbook"
                | None => ret tt
                end) in
              fillWithFallback blockCtx
          end
      end
  end.

(** [ProcessEndBlock].  [metadataPoolIDs] is [metadata.PoolIDs]. *)
Definition ProcessEndBlock (fuel : nat) (blockHeight : Z) (metadataPoolIDs : gset Z) : Mo error :=
  let* r := call (fun _ => EvGetCanonical) (extGetAllCanonicalOrderbookPoolIDs o) in
  match r with
  | Fail err =>
      let* _ := logger Error "failed to get all canonical orderbook pool IDs" in
      ret (Some err)
  | Ok canonicalOrderbooks =>
      (* Fetch ticks for all the orderbooks: the returned error is not read *)
      let* _ := fetchTicksForModifiedOrderbooks metadataPoolIDs canonicalOrderbooks in
      (* For simplicity, we allow only one block to be processed at a time. *)
      let* swapped := CompareAndSwap false true in
      if negb swapped then
        let* _ := logger Info "orderbook filler is already in progress" in
        ret None
      else
        let* err := processBlockLocked fuel blockHeight canonicalOrderbooks in
        (* defer o.atomicBool.Store(false) *)
        let* _ := Store false in
        ret err
  end.

End Plugin.

(** ** A concrete deployment

    Two canonical pools quoted in [uusdc]; the wallet holds less [uusdc] than
    the fillable ask amount.  The switches make the tick query, the
    simulation or the broadcast fail, and classify every quote as low
    value. *)
Module Scenario.

Definition pools : list CanonicalOrderBooksResult :=
  [ mkOrderBook "uatom" "uusdc" 1 "osmo1a"; mkOrderBook "uosmo" "uusdc" 2 "osmo1b" ].

Definition quote (amountIn : Z) (denomIn denomOut : string) (poolID : Z) (low : bool)
    : MsgContext :=
  mkMsg poolID denomIn denomOut amountIn amountIn (Z.min amountIn 62) low 50000
        ("swap/" +:+ denomIn +:+ "/" +:+ denomOut).

Definition plugin (ticksFail simFail execFail lowValue : bool) : Externals unit unit :=
  {| extGetAllCanonicalOrderbookPoolIDs := fun w => (Ok pools, w);
     extFetchTicksForOrderbook :=
       fun _ w => (if ticksFail then Some "tick query failed" else None, w);
     extAllBalances := fun w => (Ok [("uatom", 1000); ("uosmo", 1000); ("uusdc", 60)], w);
     extGetPrices := fun _ w => (Ok tt, w);
     extGasPrice := fun w => (Ok 25, w);
     extValidateUserBalances := fun _ _ _ => None;
     extGetFillableOrders := fun _ _ w => (Ok (100, 0), w);
     extValidateArb := fun _ amountIn denomIn denomOut poolID w =>
       (if 0 <? amountIn then Ok (quote amountIn denomIn denomOut poolID lowValue)
        else Fail "amount must be positive", w);
     extSimulateMsgs := fun _ w => (if simFail then Fail "simulation failed" else Ok 120000, w);
     extExecuteTx := fun _ _ _ w =>
       (if execFail then Fail "broadcast failed" else Ok (mkResp 0 "hash" "ok"), w);
     extRank := fun msgs => msgs;
     BaseDenom := "uosmo" |}.

Definition ctx : BlockCtx unit :=
  mkBlockCtx [("uatom", 1000); ("uosmo", 1000); ("uusdc", 60)] tt 25 7.

Definition idle : State unit := mkState tt false txctx.New [].
Definition busy : State unit := mkState tt true txctx.New [].

End Scenario.

(** The same deployment with an outage of the balance or of the price
    service, and with the pools of one base denom barred by the balance
    check. *)
Module Outage.

Definition plugin (balancesDown pricesDown : bool) (barredBase : string)
    : Externals unit unit :=
  let up := Scenario.plugin false false false false in
  {| extGetAllCanonicalOrderbookPoolIDs := extGetAllCanonicalOrderbookPoolIDs up;
     extFetchTicksForOrderbook := extFetchTicksForOrderbook up;
     extAllBalances := fun w =>
       if balancesDown then (Fail "balances unavailable", w) else extAllBalances up w;
     extGetPrices := fun denoms w =>
       if pricesDown then (Fail "prices unavailable", w) else extGetPrices up denoms w;
     extGasPrice := extGasPrice up;
     extValidateUserBalances := fun _ base _ =>
       if String.eqb base barredBase then Some "insufficient balance" else None;
     extGetFillableOrders := extGetFillableOrders up;
     extValidateArb := extValidateArb up;
     extSimulateMsgs := extSimulateMsgs up;
     extExecuteTx := extExecuteTx up;
     extRank := extRank up;
     BaseDenom := BaseDenom up |}.

(** Pool 2 is barred by the balance check and both the simulation and the
    broadcast fail, so the batch ends with the one message of pool 1; the
    switch makes the ranking filter every message away. *)
Definition single (rankAway : bool) : Externals unit unit :=
  let down := Scenario.plugin false true true false in
  {| extGetAllCanonicalOrderbookPoolIDs := extGetAllCanonicalOrderbookPoolIDs down;
     extFetchTicksForOrderbook := extFetchTicksForOrderbook down;
     extAllBalances := extAllBalances down;
     extGetPrices := extGetPrices down;
     extGasPrice := extGasPrice down;
     extValidateUserBalances := fun _ base _ =>
       if String.eqb base "uosmo" then Some "insufficient balance" else None;
     extGetFillableOrders := extGetFillableOrders down;
     extValidateArb := extValidateArb down;
     extSimulateMsgs := extSimulateMsgs down;
     extExecuteTx := extExecuteTx down;
     extRank := fun msgs => if rankAway then [] else msgs;
     BaseDenom := BaseDenom down |}.

(** A state whose batch holds one message. *)
Definition loaded : State unit :=
  mkState tt false
          (txctx.AddMsg (Scenario.quote 63 "uusdc" "uatom" 1 false) true txctx.New) [].

(** The state in which [ProcessEndBlock] reaches the flag, from
    [Scenario.idle] with pool 1 updated. *)
Definition refreshed : State unit :=
  mkState tt false txctx.New [EvGetCanonical; EvFetchTicks 1].

End Outage.

(** ** Vocabulary of the statements *)

Definition isValidateArb (e : Event) : Prop :=
  match e with
  | EvValidateArb _ _ _ _ _ => True
  | _ => False
  end.

(** The single-message Transaction Context that [fillImmediate] executes. *)
Definition immediateTx (msgCtx : MsgContext) : TxContext :=
  let t := txctx.AddMsg msgCtx true txctx.New in
  txctx.UpdateAdjustedGasTotal (u64 (txctx.GetAdjustedGasUsedTotal t * 110) / 100) t.

(** What a computation leaves alone between two states: the flag is kept,
    the Transaction Context moves along [T], and only events in [P] are
    recorded. *)
Definition frame {World} (P : Event -> Prop) (T : TxContext -> TxContext -> Prop)
    (st st' : State World) : Prop :=
  atomicBool st' = atomicBool st /\ T (txCtx st) (txCtx st') /\
  exists evs, events st' = events st ++ evs /\ Forall P evs.

(** The computation returns from every state, within the frame. *)
Definition respects {World A} (P : Event -> Prop) (T : TxContext -> TxContext -> Prop)
    (m : M World A) : Prop :=
  forall st, exists a st', m st = Some (a, st') /\ frame P T st st'.

(** No constraint on the events, none on the Transaction Context. *)
Definition anyEvent (e : Event) : Prop := True.
Definition anyTx (t t' : TxContext) : Prop := True.

(** The events of a call that only asks the pool registry and logs. *)
Definition silentEvent (e : Event) : Prop :=
  match e with
  | EvGetCanonical | EvLog _ _ => True
  | _ => False
  end.

(** The same, with the tick refresh. *)
Definition quietEvent (e : Event) : Prop :=
  match e with
  | EvGetCanonical | EvFetchTicks _ | EvLog _ _ => True
  | _ => False
  end.

(** The single-flight property in its strict reading: a call that finds the
    flag set returns nil having refreshed no ticks, fetched no balances or
    prices, simulated and executed nothing, and leaves the Transaction
    Context and the flag as they were. *)
Definition skipped_call_is_silent {World Prices} (o : Externals World Prices)
    (fuel : nat) (blockHeight : Z) (metadataPoolIDs : gset Z) (st : State World) : Prop :=
  atomicBool st = true ->
  exists st',
    ProcessEndBlock o fuel blockHeight metadataPoolIDs st = Some (None, st')
    /\ atomicBool st' = true
    /\ txCtx st' = txCtx st
    /\ exists evs, events st' = events st ++ evs /\ Forall silentEvent evs.

(** The batches that were simulated and the transactions that were sent for
    execution, in order. *)
Definition simulated (evs : list Event) : list (list string) :=
  omap (fun e => match e with EvSimulate sdkMsgs => Some sdkMsgs | _ => None end) evs.

Definition executed (evs : list Event) : list TxContext :=
  omap (fun e => match e with EvExecute tx => Some tx | _ => None end) evs.

(** The amounts that were validated, the pools whose fillable orders were
    queried and the pools whose ticks were fetched, in order. *)
Definition validations (evs : list Event) : list Z :=
  omap (fun e => match e with EvValidateArb amountIn _ _ _ _ => Some amountIn | _ => None end) evs.

Definition fillableQueries (evs : list Event) : list Z :=
  omap (fun e => match e with EvFillable poolID => Some poolID | _ => None end) evs.

Definition tickFetches (evs : list Event) : list Z :=
  omap (fun e => match e with EvFetchTicks poolID => Some poolID | _ => None end) evs.

(** Everything but a query of fillable orders. *)
Definition notFillable (e : Event) : Prop :=
  match e with
  | EvFillable _ => False
  | _ => True
  end.

(** A validation of the given direction and pool at an amount inside the
    band; any other event is none of its concern. *)
Definition probesWithin (low high : Z) (denomIn denomOut : string) (poolID : Z)
    (e : Event) : Prop :=
  match e with
  | EvValidateArb amountIn dIn dOut ob _ =>
      low <= amountIn <= high /\ dIn = denomIn /\ dOut = denomOut /\ ob = poolID
  | _ => False
  end.

(** ** The mirror of an exchange order book

    [ingest/usecase/plugins/osmocex-filler/types/assets.go].  The two Go maps
    from price to size are [gmap]s; the mutex is not part of the model.  A
    method that mutates the book returns the new book.  The books of the
    sources are built over maps made with [make]; a nil map, on which a Go
    assignment panics, is not modelled. *)
Module osmocexfillertypes.

Record OrderbookEntry := mkEntry {
  Direction : string;
  Price : string;
  Size : string }.

Record OrderbookData := mkBook {
  Symbol : string;
  bids : gmap string string;
  asks : gmap string string }.

Definition NewOrderbookData (symbol : string) (bids asks : gmap string string) : OrderbookData :=
  mkBook symbol bids asks.

(** [Bids]: one entry per level, in the iteration order of the map. *)
Definition Bids (o : OrderbookData) : list OrderbookEntry :=
  (fun level => mkEntry "bid" level.1 level.2) <$> map_to_list (bids o).

Definition Asks (o : OrderbookData) : list OrderbookEntry :=
  (fun level => mkEntry "ask" level.1 level.2) <$> map_to_list (asks o).

Definition SetBid (price size : string) (o : OrderbookData) : OrderbookData :=
  mkBook (Symbol o) (<[price := size]> (bids o)) (asks o).

Definition SetAsk (price size : string) (o : OrderbookData) : OrderbookData :=
  mkBook (Symbol o) (bids o) (<[price := size]> (asks o)).

Definition RemoveBid (price : string) (o : OrderbookData) : OrderbookData :=
  mkBook (Symbol o) (delete price (bids o)) (asks o).

Definition RemoveAsk (price : string) (o : OrderbookData) : OrderbookData :=
  mkBook (Symbol o) (bids o) (delete price (asks o)).

Definition GetPrice (e : OrderbookEntry) : string := Price e.
Definition GetSize (e : OrderbookEntry) : string := Size e.
Definition GetDirection (e : OrderbookEntry) : string := Direction e.
Definition SetSize (size : string) (e : OrderbookEntry) : OrderbookEntry :=
  mkEntry (Direction e) (Price e) size.

(** remappings *)
Definition symbolToChainDenom : list (string * string) :=
  [ ("USDC", "ibc/498A0751C798A0D9A389AA3691123DADA57DAA4FE165D5C75894505B876BA6E4");
    ("BTC", "factory/osmo1z6r6qdknhgsc0zeracktgpcxf43j6sekq07nw8sxduc9lg0qjjlqfu25e3/alloyed/allBTC");
    ("USDT", "factory/osmo1em6xs47hd82806f5cxgyufguxrrc7l0aqx7nzzptjuqgswczk8csavdxek/alloyed/allUSDT");
    ("ETH", "factory/osmo1k6c8jln7ejuqwtqmay3yvzrg3kueaczl96pk067ldg8u835w0yhsw27twm/alloyed/allETH");
    ("ATOM", "ibc/27394FB092D2ECCD56123C74F36E4C1F926001CEADA9CA97EA622B25F41E5EB2") ].

(** A Go map read: the value of the key, the empty string when absent. *)
Fixpoint mapIndex (m : list (string * string)) (key : string) : string :=
  match m with
  | [] => ""
  | (k, v) :: rest => if String.eqb k key then v else mapIndex rest key
  end.

Record Pair := mkPair {
  Base : string;
  Quote : string }.

Definition String (p : Pair) : string := Base p +:+ Quote p.

Definition BaseInterchainDenom (p : Pair) : string := mapIndex symbolToChainDenom (Base p).

Definition QuoteInterchainDenom (p : Pair) : string := mapIndex symbolToChainDenom (Quote p).

End osmocexfillertypes.

(** ** The exchange feed

    [parseBybitOrderbook], from the unnamed source file of package [bybit].
    The message of the exchange carries its symbol and two lists of levels,
    each a price and a size. *)
Module bybit.

Record Level := mkLevel {
  Price : string;
  Size : string }.

Record V5WebsocketPublicOrderBookData := mkData {
  Symbol : string;
  Bids : list Level;
  Asks : list Level }.

Definition parseBybitOrderbook (data : V5WebsocketPublicOrderBookData)
    : osmocexfillertypes.OrderbookData :=
  let bids := foldl (fun (bids : gmap string string) bid => <[Price bid := Size bid]> bids)
                    ∅ (Bids data) in
  let asks := foldl (fun (asks : gmap string string) ask => <[Price ask := Size ask]> asks)
                    ∅ (Asks data) in
  osmocexfillertypes.NewOrderbookData (Symbol data) bids asks.

(** The two loops of [updateBybitOrderbook], lines 51 to 65, on the book the
    function has loaded: a level of size ["0"] is removed, any other level
    is set. *)
Definition updateLevels (data : V5WebsocketPublicOrderBookData)
    (orderbook : osmocexfillertypes.OrderbookData) : osmocexfillertypes.OrderbookData :=
  let orderbook :=
    foldl (fun orderbook bid =>
             if String.eqb (Size bid) "0"
             then osmocexfillertypes.RemoveBid (Price bid) orderbook
             else osmocexfillertypes.SetBid (Price bid) (Size bid) orderbook)
          orderbook (Bids data) in
  foldl (fun orderbook ask =>
           if String.eqb (Size ask) "0"
           then osmocexfillertypes.RemoveAsk (Price ask) orderbook
           else osmocexfillertypes.SetAsk (Price ask) (Size ask) orderbook)
        orderbook (Asks data).

End bybit.

(** * Properties *)

(** ** Fixed point arithmetic of the search *)

Section DecFacts.

Lemma precision_pos : 0 < Dec.fivePrecision.
Proof. reflexivity. Qed.

Lemma precision_halves : Dec.precisionReuse = 2 * Dec.fivePrecision.
Proof. reflexivity. Qed.

Lemma precision_hundred : Dec.precisionReuse = 100 * 10 ^ 16.
Proof. reflexivity. Qed.

Lemma precision_nonzero : Dec.precisionReuse <> 0.
Proof. pose proof precision_pos. pose proof precision_halves. lia. Qed.

Lemma quot_exact (a b : Z) : b <> 0 -> Z.quot (a * b) b = a.
Proof. intros Hb. apply Z.quot_mul. exact Hb. Qed.

Lemma rem_exact (a b : Z) : b <> 0 -> Z.rem (a * b) b = 0.
Proof. intros Hb. apply Z.rem_mul. exact Hb. Qed.

Lemma chopPrecisionAndRound_exact (a : Z) :
  Dec.chopPrecisionAndRound (a * Dec.precisionReuse) = a.
Proof.
  pose proof precision_nonzero as Hnz.
  assert (Habs : forall b, Dec.chopPrecisionAndRoundAbs (b * Dec.precisionReuse) = b).
  { intros b. unfold Dec.chopPrecisionAndRoundAbs.
    rewrite rem_exact by exact Hnz. simpl. apply quot_exact, Hnz. }
  unfold Dec.chopPrecisionAndRound.
  destruct (a * Dec.precisionReuse <? 0).
  - rewrite <- Z.mul_opp_l, Habs. lia.
  - apply Habs.
Qed.

Lemma chopPrecisionAndRoundUp_exact (a : Z) :
  Dec.chopPrecisionAndRoundUp (a * Dec.precisionReuse) = a.
Proof.
  pose proof precision_nonzero as Hnz.
  unfold Dec.chopPrecisionAndRoundUp.
  destruct (a * Dec.precisionReuse <? 0).
  - rewrite <- Z.mul_opp_l, quot_exact by exact Hnz. lia.
  - rewrite rem_exact by exact Hnz. simpl. apply quot_exact, Hnz.
Qed.

(** The upper end of the search band: [proposed * 1.05], truncated. *)
Lemma amountInHigh_eq (p : Z) :
  Dec.TruncateInt (Dec.MulMut (Dec.ToLegacyDec p) multiplier) = Z.quot (p * 105) 100.
Proof.
  unfold Dec.MulMut, Dec.ToLegacyDec, multiplier, Dec.ofHundredths, Dec.TruncateInt.
  replace (p * Dec.precisionReuse * (105 * 10 ^ 16))
    with (p * 105 * 10 ^ 16 * Dec.precisionReuse) by ring.
  rewrite chopPrecisionAndRound_exact, precision_hundred.
  apply Z.quot_mul_cancel_r; lia.
Qed.

(** The half sum kept by [QuoRoundupMut] is exact. *)
Lemma QuoRoundupMut_two (x : Z) :
  Dec.QuoRoundupMut (Dec.ToLegacyDec x) two = x * Dec.fivePrecision.
Proof.
  assert (Htwo : two = 2 * Dec.precisionReuse) by reflexivity.
  pose proof precision_nonzero as Hnz.
  unfold Dec.QuoRoundupMut, Dec.ToLegacyDec. rewrite Htwo.
  replace (x * Dec.precisionReuse * (Dec.precisionReuse * Dec.precisionReuse))
    with (x * Dec.fivePrecision * Dec.precisionReuse * (2 * Dec.precisionReuse))
    by (rewrite precision_halves; ring).
  rewrite quot_exact by lia.
  apply chopPrecisionAndRoundUp_exact.
Qed.

(** The midpoint of a round: [ceil ((low + high) / 2)]. *)
Lemma mid_eq (low high : Z) :
  Dec.TruncateInt (Dec.Ceil (Dec.QuoRoundupMut
    (Dec.Add (Dec.ToLegacyDec low) (Dec.ToLegacyDec high)) two)) = (low + high + 1) / 2.
Proof.
  unfold Dec.Add.
  replace (Dec.ToLegacyDec low + Dec.ToLegacyDec high) with (Dec.ToLegacyDec (low + high))
    by (unfold Dec.ToLegacyDec; ring).
  rewrite QuoRoundupMut_two.
  set (x := low + high).
  pose proof precision_nonzero as Hnz.
  pose proof precision_pos as Hpos5.
  pose proof precision_halves as Hhalf.
  assert (Hx : x = 2 * (x / 2) + x mod 2) by (apply Z.div_mod; lia).
  assert (Hm : 0 <= x mod 2 < 2) by (apply Z.mod_pos_bound; lia).
  set (k := x / 2) in *.
  assert (Hk : (x + 1) / 2 = k + x mod 2).
  { symmetry. apply Z.div_unique with (r := 1 - x mod 2); lia. }
  rewrite Hk.
  unfold Dec.Ceil, Dec.TruncateInt.
  set (F := Dec.fivePrecision) in *. set (P := Dec.precisionReuse) in *.
  destruct (Z.eq_dec (x mod 2) 0) as [He|Ho].
  - (* even *)
    rewrite He, Z.add_0_r in *.
    replace (x * F) with (k * P) by nia.
    rewrite rem_exact, quot_exact by exact Hnz. simpl.
    apply quot_exact, Hnz.
  - (* odd *)
    assert (H1 : x mod 2 = 1) by lia. rewrite H1 in *.
    assert (Hv : x * F = k * P + F) by nia.
    destruct (Z_lt_le_dec x 0) as [Hneg|Hnonneg].
    + (* negative: truncation already rounds up *)
      assert (Hq : Z.quot (x * F) P = k + 1).
      { replace (x * F) with (- ((- k - 1) * P + F)) by nia.
        rewrite Z.quot_opp_l by exact Hnz.
        rewrite <- (Z.quot_unique ((- k - 1) * P + F) P (- k - 1) F); [lia | nia | lia | nia]. }
      assert (Hr : Z.rem (x * F) P = - F).
      { pose proof (Z.quot_rem' (x * F) P) as E. rewrite Hq in E. nia. }
      rewrite Hq, Hr.
      replace (- F =? 0) with false by (symmetry; apply Z.eqb_neq; lia).
      replace (- F <? 0) with true by (symmetry; apply Z.ltb_lt; lia).
      apply quot_exact, Hnz.
    + assert (Hq : Z.quot (x * F) P = k).
      { symmetry. apply Z.quot_unique with (r := F).
        - nia.
        - lia.
        - nia. }
      assert (Hr : Z.rem (x * F) P = F).
      { pose proof (Z.quot_rem' (x * F) P) as E. rewrite Hq in E. nia. }
      rewrite Hq, Hr.
      replace (F =? 0) with false by (symmetry; apply Z.eqb_neq; lia).
      replace (F <? 0) with false by (symmetry; apply Z.ltb_ge; lia).
      apply quot_exact, Hnz.
Qed.

End DecFacts.

(** ** Frames *)
Section Frames.
Context {World : Type}.
Variable P : Event -> Prop.
Variable T : TxContext -> TxContext -> Prop.
Hypothesis T_refl : forall t, T t t.
Hypothesis T_trans : forall a b c, T a b -> T b c -> T a c.

Lemma frame_refl (st : State World) : frame P T st st.
Proof.
  repeat split; [apply T_refl|]. exists []. split; [by rewrite app_nil_r | constructor].
Qed.

Lemma frame_trans (a b c : State World) : frame P T a b -> frame P T b c -> frame P T a c.
Proof.
  intros (Hf1 & Ht1 & e1 & He1 & Hp1) (Hf2 & Ht2 & e2 & He2 & Hp2).
  repeat split.
  - congruence.
  - eapply T_trans; eassumption.
  - exists (e1 ++ e2). split.
    + rewrite He2, He1. by rewrite app_assoc.
    + apply Forall_app. by split.
Qed.

Lemma respects_ret {A} (a : A) : respects P T (World := World) (ret a).
Proof. intros st. exists a, st. split; [reflexivity | apply frame_refl]. Qed.

Lemma respects_bind {A B} (m : M World A) (k : A -> M World B) :
  respects P T m -> (forall a, respects P T (k a)) -> respects P T (bind m k).
Proof.
  intros Hm Hk st. destruct (Hm st) as (a & st1 & E1 & F1).
  destruct (Hk a st1) as (b & st2 & E2 & F2).
  exists b, st2. split.
  - unfold bind. by rewrite E1.
  - eapply frame_trans; eassumption.
Qed.

Lemma respects_emit e : P e -> respects P T (World := World) (emit e).
Proof.
  intros He st. eexists tt, _. split; [reflexivity|].
  repeat split; [apply T_refl|]. exists [e]. split; [reflexivity | by constructor].
Qed.

Lemma respects_logger lvl msg : P (EvLog lvl msg) -> respects P T (World := World) (logger lvl msg).
Proof. apply respects_emit. Qed.

Lemma respects_call {A} (e : A -> Event) (f : World -> A * World) :
  (forall a, P (e a)) -> respects P T (call e f).
Proof.
  intros He st. unfold call. destruct (f (world st)) as [a w].
  eexists a, _. split; [reflexivity|].
  repeat split; [apply T_refl|]. exists [e a]. split; [reflexivity | by constructor].
Qed.

Lemma respects_GetTxCtx : respects P T (World := World) GetTxCtx.
Proof. intros st. exists (txCtx st), st. split; [reflexivity | apply frame_refl]. Qed.

Lemma respects_onTxCtx f : (forall t, T t (f t)) -> respects P T (World := World) (onTxCtx f).
Proof.
  intros Hf st. eexists tt, _. split; [reflexivity|].
  repeat split; [apply Hf|]. exists []. split; [by rewrite app_nil_r | constructor].
Qed.

Lemma respects_forEach {A} (l : list A) (body : A -> M World unit) :
  (forall a, respects P T (body a)) -> respects P T (forEach l body).
Proof.
  intros Hb. induction l as [|a l IH]; simpl.
  - apply respects_ret.
  - apply respects_bind; [apply Hb | intros _; exact IH].
Qed.

Lemma respects_goEach {A B} (l : list A) (body : A -> M World (list B)) :
  (forall a, respects P T (body a)) -> respects P T (goEach l body).
Proof.
  intros Hb. induction l as [|a l IH]; simpl.
  - apply respects_ret.
  - apply respects_bind; [apply Hb | intros r].
    apply respects_bind; [exact IH | intros rs]. apply respects_ret.
Qed.

End Frames.

(** ** The search *)

Section Search.
Context {World Prices : Type} (o : Externals World Prices).

Lemma mid_between (low high : Z) : low <= high -> low <= (low + high + 1) / 2 <= high.
Proof.
  intros H.
  pose proof (Z.div_mod (low + high + 1) 2 ltac:(lia)) as E.
  pose proof (Z.mod_pos_bound (low + high + 1) 2 ltac:(lia)) as B.
  lia.
Qed.

Lemma amountInHigh_band (p : Z) :
  0 <= p -> p <= Z.quot (p * 105) 100 /\ 100 * Z.quot (p * 105) 100 <= 105 * p.
Proof.
  intros Hp. rewrite Z.quot_div_nonneg by lia.
  pose proof (Z.div_mod (p * 105) 100 ltac:(lia)) as E.
  pose proof (Z.mod_pos_bound (p * 105) 100 ltac:(lia)) as B.
  lia.
Qed.

(** Every return statement of [tryValidate] carries a nil error. *)
Lemma tryValidate_nil_error (fuel : nat) :
  forall (ctx : BlockCtx Prices) low high dIn dOut ob lowMsg attempts st msg amt err st',
    tryValidate o fuel ctx low high dIn dOut ob lowMsg attempts st = Some (msg, amt, err, st') ->
    err = None.
Proof.
  induction fuel as [|fuel IH]; intros ctx low high dIn dOut ob lowMsg attempts st msg amt err st'.
  - discriminate.
  - cbn [tryValidate]. destruct (attempts =? 0).
    + intros [= _ _ <- _]. reflexivity.
    + unfold bind at 1.
      destruct (validateArb o ctx _ dIn dOut ob st) as [[r st1]|]; [|discriminate].
      destruct r as [midMsg|e]; [destruct (GetMaxFeeCap lowMsg <=? GetMaxFeeCap midMsg)|].
      * apply IH.
      * unfold bind. destruct (tryValidate o fuel ctx low _ dIn dOut ob lowMsg _ st1)
          as [[[[topMsg topAmount] terr] st2]|]; [|discriminate].
        destruct terr; [|destruct (_ <=? _)]; intros [= _ _ <- _]; reflexivity.
      * unfold bind. destruct (tryValidate o fuel ctx low _ dIn dOut ob lowMsg _ st1)
          as [[[[topMsg topAmount] terr] st2]|]; [|discriminate].
        destruct terr; [|destruct (_ <=? _)]; intros [= _ _ <- _]; reflexivity.
Qed.

(** A search with [n] attempts left and more fuel than that returns after
    exactly [n] validations, with a context that was validated at the amount
    it returns (or the baseline it was given), scored no lower than the
    baseline, inside the band it was given. *)
Lemma tryValidate_rounds (n : nat) :
  forall fuel (ctx : BlockCtx Prices) low high dIn dOut ob lowMsg st,
    (n < fuel)%nat ->
    exists msg amt st' evs,
      tryValidate o fuel ctx low high dIn dOut ob lowMsg (Z.of_nat n) st
        = Some (msg, amt, None, st')
      /\ atomicBool st' = atomicBool st
      /\ txCtx st' = txCtx st
      /\ events st' = events st ++ evs
      /\ length evs = n
      /\ Forall isValidateArb evs
      /\ GetMaxFeeCap lowMsg <= GetMaxFeeCap msg
      /\ (low <= high -> low <= amt <= high)
      /\ ((msg = lowMsg /\ amt = low) \/ In (EvValidateArb amt dIn dOut ob (Ok msg)) evs).
Proof.
  induction n as [|n IH]; intros fuel ctx low high dIn dOut ob lowMsg st Hfuel;
    (destruct fuel as [|fuel]; [lia|]).
  - exists lowMsg, low, st, []. cbn. rewrite app_nil_r.
    split_and!; try done; try lia. by left.
  - cbn [tryValidate].
    replace (Z.of_nat (S n) =? 0) with false by (symmetry; apply Z.eqb_neq; lia).
    replace (Z.of_nat (S n) - 1) with (Z.of_nat n) by lia.
    rewrite mid_eq. set (mid := (low + high + 1) / 2).
    unfold bind at 1, validateArb, call.
    destruct (extValidateArb o ctx mid dIn dOut ob (world st)) as [r w].
    set (ev := EvValidateArb mid dIn dOut ob r).
    set (st1 := mkState w (atomicBool st) (txCtx st) (events st ++ [ev])).
    assert (Hmid : low <= high -> low <= mid <= high) by apply mid_between.
    clearbody mid.
    destruct r as [midMsg|e];
      [destruct (Z.leb_spec (GetMaxFeeCap lowMsg) (GetMaxFeeCap midMsg)) as [Hge|Hlt]|].
    { (* Case 1: the midpoint is the new baseline *)
      destruct (IH fuel ctx mid high dIn dOut ob midMsg st1 ltac:(lia))
        as (msg & amt & st2 & evs & Hrun & Hflag & Htx & Hev & Hlen & Hall & Hfee & Hband & Hval).
      exists msg, amt, st2, (ev :: evs). cbn [length].
      split_and!; try done; try lia.
      - rewrite Hev. subst st1. cbn. by rewrite <- app_assoc.
      - by constructor.
      - destruct Hval as [[-> ->]|?]; right; [by left | by right]. }
    (* Case 2 and case 3: the baseline is kept *)
    all: destruct (IH fuel ctx low mid dIn dOut ob lowMsg st1 ltac:(lia))
        as (top & topAmt & st2 & evs & Hrun & Hflag & Htx & Hev & Hlen & Hall & Hfee & Hband & Hval).
    all: unfold bind; rewrite Hrun.
    all: assert (Hevs : events st2 = events st ++ ev :: evs)
        by (rewrite Hev; subst st1; cbn; by rewrite <- app_assoc).
    all: destruct (Z.leb_spec (GetMaxFeeCap lowMsg) (GetMaxFeeCap top)) as [Hge'|Hlt'];
      [ exists top, topAmt, st2, (ev :: evs) | exists lowMsg, low, st2, (ev :: evs) ].
    all: cbn [length]; split_and!; try done; try lia; try (by constructor); try (by left).
    all: destruct Hval as [?|?]; [by left | right; by right].
Qed.

End Search.

(** ** From the search to the Transaction Context *)

Section Arb.
Context {World Prices : Type} (o : Externals World Prices).

Lemma immediateTx_single msgCtx : txMsgs (immediateTx msgCtx) = [msgCtx].
Proof. reflexivity. Qed.

(** A high value winner is executed at once, alone; it joins the batch
    exactly when that execution fails. *)
Lemma executeOrBatch_high_value (ctx : BlockCtx Prices) msgCtx amount st :
  IsLowValue msgCtx = false ->
  exists r st',
    executeOrBatch o ctx msgCtx amount st = Some (amount, None, st')
    /\ extExecuteTx o (GetBlockHeight ctx) (GetGasPrice ctx) (immediateTx msgCtx) (world st)
       = (r, world st')
    /\ atomicBool st' = atomicBool st
    /\ match r with
       | Ok _ =>
           events st' = events st ++ [EvExecute (immediateTx msgCtx);
                                      EvLog Info "Executed immediate fill transaction"]
           /\ txCtx st' = txctx.AddMsg msgCtx false (txCtx st)
       | Fail _ =>
           events st' = events st ++ [EvExecute (immediateTx msgCtx);
                                      EvLog Error "failed to fill high value route immediately"]
           /\ txCtx st' = txctx.AddMsg msgCtx true (txCtx st)
       end.
Proof.
  intros Hhigh. unfold executeOrBatch, fillImmediate. rewrite Hhigh. cbn [negb].
  fold (immediateTx msgCtx).
  unfold bind, executeTx, call, logger, emit, onTxCtx, ret.
  destruct (extExecuteTx o _ _ (immediateTx msgCtx) (world st)) as [[resp|e] w];
    eexists _, _; cbn; (split; [reflexivity|]); split_and!; try reflexivity;
    by rewrite <- app_assoc.
Qed.

(** A low value winner is not executed; the flag it is added with is the
    one of a winner that was executed successfully. *)
Lemma executeOrBatch_low_value (ctx : BlockCtx Prices) msgCtx amount st :
  IsLowValue msgCtx = true ->
  executeOrBatch o ctx msgCtx amount st
  = Some (amount, None,
          mkState (world st) (atomicBool st) (txctx.AddMsg msgCtx false (txCtx st)) (events st)).
Proof. intros Hlow. unfold executeOrBatch. rewrite Hlow. reflexivity. Qed.

Lemma executeOrBatch_returns (ctx : BlockCtx Prices) msgCtx amount st :
  exists st', executeOrBatch o ctx msgCtx amount st = Some (amount, None, st')
              /\ atomicBool st' = atomicBool st.
Proof.
  destruct (IsLowValue msgCtx) eqn:Hv.
  - rewrite executeOrBatch_low_value by done. eexists. split; reflexivity.
  - destruct (executeOrBatch_high_value ctx msgCtx amount st Hv) as (r & st' & E & _ & F & _).
    by exists st'.
Qed.

Lemma validateArb_run (ctx : BlockCtx Prices) p dIn dOut ob st r st1 :
  validateArb o ctx p dIn dOut ob st = Some (r, st1) ->
  atomicBool st1 = atomicBool st /\ txCtx st1 = txCtx st
  /\ events st1 = events st ++ [EvValidateArb p dIn dOut ob r].
Proof.
  unfold validateArb, call. destruct (extValidateArb o ctx p dIn dOut ob (world st)) as [r' w].
  intros [= <- <-]. by cbn.
Qed.

(** What a search does once the proposed amount has validated. *)
Lemma computePerfectArbAmountIfExists_valid fuel (ctx : BlockCtx Prices) p dIn dOut ob st msg0 st1 :
  (15 < fuel)%nat ->
  validateArb o ctx p dIn dOut ob st = Some (Ok msg0, st1) ->
  exists winner amount st2 st3 evs,
    tryValidate o fuel ctx p (Z.quot (p * 105) 100) dIn dOut ob msg0
                maxRecursionAttemptsArbSearch st1 = Some (winner, amount, None, st2)
    /\ executeOrBatch o ctx winner amount st2 = Some (amount, None, st3)
    /\ computePerfectArbAmountIfExists o fuel ctx p dIn dOut ob st = Some (amount, None, st3)
    /\ events st2 = events st1 ++ evs /\ length evs = 15%nat /\ Forall isValidateArb evs
    /\ txCtx st2 = txCtx st1
    /\ atomicBool st3 = atomicBool st
    /\ GetMaxFeeCap msg0 <= GetMaxFeeCap winner
    /\ (0 <= p -> p <= amount /\ 100 * amount <= 105 * p)
    /\ ((winner = msg0 /\ amount = p) \/ In (EvValidateArb amount dIn dOut ob (Ok winner)) evs).
Proof.
  intros Hfuel Hval.
  destruct (tryValidate_rounds o 15 fuel ctx p (Z.quot (p * 105) 100) dIn dOut ob msg0 st1 Hfuel)
    as (winner & amount & st2 & evs & Hrun & Hflag & Htx & Hev & Hlen & Hall & Hfee & Hband & Hwin).
  change (Z.of_nat 15) with maxRecursionAttemptsArbSearch in Hrun.
  destruct (executeOrBatch_returns ctx winner amount st2) as (st3 & Hexec & Hflag3).
  destruct (validateArb_run _ _ _ _ _ _ _ _ Hval) as (Hflag1 & _ & _).
  exists winner, amount, st2, st3, evs. split_and!; try done.
  - unfold computePerfectArbAmountIfExists, bind. rewrite Hval, amountInHigh_eq, Hrun. exact Hexec.
  - congruence.
  - intros Hp. destruct (amountInHigh_band p Hp) as [H1 H2].
    specialize (Hband H1). lia.
Qed.

End Arb.

(** ** The arb search: termination, band, error path *)

Section SearchClaims.
Context {World Prices : Type} (o : Externals World Prices).

(** C6: with the attempt counter at its initial bound of 15 (it drops by one
    on each recursive call), [tryValidate] returns after at most 15
    validation rounds, and what it returns is a nil error with a Message
    Context that was validated at the returned amount: the baseline of the
    caller or the outcome of one of the rounds. *)
Theorem tryValidate_terminates_within_15_rounds
    fuel (ctx : BlockCtx Prices) low high dIn dOut ob lowMsg (st : State World) :
  (15 < fuel)%nat ->
  exists msg amt st' evs,
    tryValidate o fuel ctx low high dIn dOut ob lowMsg maxRecursionAttemptsArbSearch st
      = Some (msg, amt, None, st')
    /\ events st' = events st ++ evs
    /\ Forall isValidateArb evs
    /\ (length evs <= 15)%nat
    /\ ((msg = lowMsg /\ amt = low) \/ In (EvValidateArb amt dIn dOut ob (Ok msg)) evs).
Proof.
  intros Hfuel.
  destruct (tryValidate_rounds o 15 fuel ctx low high dIn dOut ob lowMsg st Hfuel)
    as (msg & amt & st' & evs & Hrun & _ & _ & Hev & Hlen & Hall & _ & _ & Hwin).
  exists msg, amt, st', evs. split_and!; try done. lia.
Qed.

(** C5: when the proposed amount validates (and, being a token amount, is
    not negative), the search returns an amount between [proposed] and
    [proposed * 1.05], and the fee cap of the winning Message Context, the
    one handed to [executeOrBatch], is at least the fee cap of the context
    obtained by validating the proposed amount. *)
Theorem computePerfectArbAmountIfExists_band
    fuel (ctx : BlockCtx Prices) p dIn dOut ob (st : State World) msg0 st1 :
  (15 < fuel)%nat ->
  0 <= p ->
  validateArb o ctx p dIn dOut ob st = Some (Ok msg0, st1) ->
  exists winner amount st2 st3,
    tryValidate o fuel ctx p (Z.quot (p * 105) 100) dIn dOut ob msg0
                maxRecursionAttemptsArbSearch st1 = Some (winner, amount, None, st2)
    /\ executeOrBatch o ctx winner amount st2 = Some (amount, None, st3)
    /\ computePerfectArbAmountIfExists o fuel ctx p dIn dOut ob st = Some (amount, None, st3)
    /\ p <= amount
    /\ 100 * amount <= 105 * p
    /\ GetMaxFeeCap msg0 <= GetMaxFeeCap winner.
Proof.
  intros Hfuel Hp Hval.
  destruct (computePerfectArbAmountIfExists_valid o fuel ctx p dIn dOut ob st msg0 st1 Hfuel Hval)
    as (winner & amount & st2 & st3 & evs & Hrun & Hexec & Hall & _ & _ & _ & _ & _ & Hfee & Hband & _).
  exists winner, amount, st2, st3. destruct (Hband Hp). by split_and!.
Qed.

(** C7: every return of [tryValidate] carries a nil error; hence
    [computePerfectArbAmountIfExists] returns a non-nil error exactly when
    the validation of the proposed amount fails, and after a successful
    validation its result is the one of [executeOrBatch] on the outcome of
    the search: the branch that returns the proposed amount is never
    taken. *)
Theorem computePerfectArbAmountIfExists_error_iff
    fuel (ctx : BlockCtx Prices) p dIn dOut ob (st : State World) r st1 :
  (15 < fuel)%nat ->
  validateArb o ctx p dIn dOut ob st = Some (r, st1) ->
  (forall f low high lowMsg attempts s msg amt err s',
      tryValidate o f ctx low high dIn dOut ob lowMsg attempts s = Some (msg, amt, err, s') ->
      err = None)
  /\ exists amount err st3,
       computePerfectArbAmountIfExists o fuel ctx p dIn dOut ob st = Some (amount, err, st3)
       /\ (err <> None <-> exists e, r = Fail e)
       /\ (forall msg0, r = Ok msg0 ->
           exists winner st2,
             tryValidate o fuel ctx p (Z.quot (p * 105) 100) dIn dOut ob msg0
                         maxRecursionAttemptsArbSearch st1 = Some (winner, amount, None, st2)
             /\ executeOrBatch o ctx winner amount st2 = Some (amount, err, st3)).
Proof.
  intros Hfuel Hval. split.
  - intros f low high lowMsg attempts s msg amt err s'. apply tryValidate_nil_error.
  - destruct r as [msg0|e].
    + destruct (computePerfectArbAmountIfExists_valid o fuel ctx p dIn dOut ob st msg0 st1
                  Hfuel Hval)
        as (winner & amount & st2 & st3 & evs & Hrun & Hexec & Hall & _).
      exists amount, None, st3. split_and!; try done.
      * split; [done | intros [e [=]]].
      * intros m [= <-]. by exists winner, st2.
    + exists IntZeroValue, (Some e), st1. split_and!.
      * unfold computePerfectArbAmountIfExists, bind. by rewrite Hval.
      * split; [by exists e | done].
      * intros m [=].
Qed.

(** C10: when the validation of the proposed amount fails, the call returns
    the zero amount with that error, and all it has done is that one
    validation: the Transaction Context is untouched and nothing is logged
    or executed. *)
Theorem computePerfectArbAmountIfExists_invalid_proposal
    fuel (ctx : BlockCtx Prices) p dIn dOut ob (st : State World) e st1 :
  validateArb o ctx p dIn dOut ob st = Some (Fail e, st1) ->
  computePerfectArbAmountIfExists o fuel ctx p dIn dOut ob st = Some (IntZeroValue, Some e, st1)
  /\ txCtx st1 = txCtx st
  /\ atomicBool st1 = atomicBool st
  /\ events st1 = events st ++ [EvValidateArb p dIn dOut ob (Fail e)].
Proof.
  intros Hval. split.
  - unfold computePerfectArbAmountIfExists, bind. by rewrite Hval.
  - destruct (validateArb_run o _ _ _ _ _ _ _ _ Hval) as (? & ? & ?). by split_and!.
Qed.

End SearchClaims.

Lemma tryValidate_terminates_within_15_rounds_witness :
  exists msg amt st' evs,
    tryValidate (Scenario.plugin false false false false) 16 Scenario.ctx 60 63
                "uusdc" "uatom" 1 (Scenario.quote 60 "uusdc" "uatom" 1 false)
                maxRecursionAttemptsArbSearch Scenario.idle
      = Some (msg, amt, None, st')
    /\ events st' = events Scenario.idle ++ evs
    /\ Forall isValidateArb evs
    /\ (length evs <= 15)%nat
    /\ ((msg = Scenario.quote 60 "uusdc" "uatom" 1 false /\ amt = 60)
        \/ In (EvValidateArb amt "uusdc" "uatom" 1 (Ok msg)) evs).
Proof.
  apply (tryValidate_terminates_within_15_rounds (Scenario.plugin false false false false) 16).
  lia.
Defined.

Lemma computePerfectArbAmountIfExists_band_witness :
  exists amount st3,
    computePerfectArbAmountIfExists (Scenario.plugin false false false false) 16 Scenario.ctx
                                    60 "uusdc" "uatom" 1 Scenario.idle
      = Some (amount, None, st3)
    /\ 60 <= amount /\ 100 * amount <= 105 * 60.
Proof.
  destruct (computePerfectArbAmountIfExists_band (Scenario.plugin false false false false) 16
              Scenario.ctx 60 "uusdc" "uatom" 1 Scenario.idle
              (Scenario.quote 60 "uusdc" "uatom" 1 false)
              (mkState tt false txctx.New
                 [EvValidateArb 60 "uusdc" "uatom" 1
                    (Ok (Scenario.quote 60 "uusdc" "uatom" 1 false))])
              ltac:(lia) ltac:(lia) eq_refl)
    as (winner & amount & st2 & st3 & _ & _ & Hrun & Hlo & Hhi & _).
  exists amount, st3. by split_and!.
Defined.

Lemma computePerfectArbAmountIfExists_error_iff_witness :
  exists amount err st3,
    computePerfectArbAmountIfExists (Scenario.plugin false false false false) 16 Scenario.ctx
                                    0 "uatom" "uusdc" 1 Scenario.idle
      = Some (amount, err, st3)
    /\ err <> None.
Proof.
  destruct (computePerfectArbAmountIfExists_error_iff (Scenario.plugin false false false false) 16
              Scenario.ctx 0 "uatom" "uusdc" 1 Scenario.idle
              (Fail "amount must be positive")
              (mkState tt false txctx.New
                 [EvValidateArb 0 "uatom" "uusdc" 1 (Fail "amount must be positive")])
              ltac:(lia) eq_refl)
    as (_ & amount & err & st3 & Hrun & Hiff & _).
  exists amount, err, st3. split; [exact Hrun|]. apply Hiff. by eexists.
Defined.

Lemma computePerfectArbAmountIfExists_invalid_proposal_witness :
  computePerfectArbAmountIfExists (Scenario.plugin false false false false) 0 Scenario.ctx
                                  0 "uatom" "uusdc" 1 Scenario.idle
  = Some (IntZeroValue, Some "amount must be positive",
          mkState tt false txctx.New
            [EvValidateArb 0 "uatom" "uusdc" 1 (Fail "amount must be positive")]).
Proof.
  apply (computePerfectArbAmountIfExists_invalid_proposal
           (Scenario.plugin false false false false) 0 Scenario.ctx 0 "uatom" "uusdc" 1
           Scenario.idle "amount must be positive").
  reflexivity.
Defined.

(** ** The per-pool processor: clamping to the wallet *)

Section Clamp.
Context {World Prices : Type} (o : Externals World Prices).


End Clamp.


(** ** The denom set *)

Section Denoms.
Context {World Prices : Type} (o : Externals World Prices).

Lemma uniqueDenoms_fold (obs : list CanonicalOrderBooksResult) :
  forall (acc : gset string) (d : string),
    d ∈ foldl (fun (uniqueDenoms : gset string) canonicalOrderbook =>
                 {[ Quote canonicalOrderbook ]} ∪ ({[ Base canonicalOrderbook ]} ∪ uniqueDenoms))
              acc obs
    <-> d ∈ acc \/ exists ob, ob ∈ obs /\ (d = Base ob \/ d = Quote ob).
Proof.
  induction obs as [|ob obs IH]; intros acc d; cbn [foldl].
  - split; [by left | intros [?|(ob & Hin & _)]; [done | by apply elem_of_nil in Hin]].
  - rewrite IH. split.
    + intros [Hacc|(ob' & Hin & Hd)].
      * apply elem_of_union in Hacc as [Hq|Hacc].
        { right. exists ob. split; [left | right; set_solver]. }
        apply elem_of_union in Hacc as [Hb|Hacc]; [|by left].
        right. exists ob. split; [left | left; set_solver].
      * right. exists ob'. split; [by right | done].
    + intros [Hacc|(ob' & Hin & Hd)].
      * left. apply elem_of_union. right. apply elem_of_union. by right.
      * apply elem_of_cons in Hin as [->|Hin].
        { left. destruct Hd as [->| ->].
          - apply elem_of_union. right. apply elem_of_union. left. by apply elem_of_singleton.
          - apply elem_of_union. left. by apply elem_of_singleton. }
        right. by exists ob'.
Qed.

(** C9: the slice returned by [getUniqueOrderbookDenoms] has no duplicates
    and holds the reference denom and the base and quote denom of every
    pool, and nothing else; the function is total and has no state. *)
Theorem getUniqueOrderbookDenoms_complete (obs : list CanonicalOrderBooksResult) :
  NoDup (getUniqueOrderbookDenoms o obs)
  /\ BaseDenom o ∈ getUniqueOrderbookDenoms o obs
  /\ (forall ob, ob ∈ obs ->
        Base ob ∈ getUniqueOrderbookDenoms o obs /\ Quote ob ∈ getUniqueOrderbookDenoms o obs)
  /\ (forall d, d ∈ getUniqueOrderbookDenoms o obs ->
        d = BaseDenom o \/ exists ob, ob ∈ obs /\ (d = Base ob \/ d = Quote ob)).
Proof.
  unfold getUniqueOrderbookDenoms. split_and!.
  - apply NoDup_elements.
  - apply elem_of_elements. set_solver.
  - intros ob Hin. split; apply elem_of_elements, elem_of_union; right;
      apply uniqueDenoms_fold; right; exists ob; auto.
  - intros d Hd. apply elem_of_elements, elem_of_union in Hd as [Hd|Hd].
    + left. set_solver.
    + apply uniqueDenoms_fold in Hd as [Hd|Hd]; [set_solver | by right].
Qed.

End Denoms.

(** ** The block orchestrator: what keeps the flag *)

Create HintDb frames.

Ltac frame_auto :=
  repeat (intros; lazymatch goal with
  | |- respects _ _ (ret _) => apply respects_ret
  | |- respects _ _ (bind _ _) => apply respects_bind
  | |- respects _ _ (emit _) => apply respects_emit
  | |- respects _ _ (logger _ _) => apply respects_logger
  | |- respects _ _ (call _ _) => apply respects_call
  | |- respects _ _ GetTxCtx => apply respects_GetTxCtx
  | |- respects _ _ (onTxCtx _) => apply respects_onTxCtx
  | |- respects _ _ (forEach _ _) => apply respects_forEach
  | |- respects _ _ (goEach _ _) => apply respects_goEach
  | |- respects _ _ (let _ := _ in _) => cbv zeta
  | |- respects _ _ (match ?x with _ => _ end) => destruct x
  | |- respects _ _ _ => solve [eauto with frames]
  | |- _ => solve [first [exact I | reflexivity | congruence]]
  end).

Section Orchestrator.
Context {World Prices : Type} (o : Externals World Prices).

Local Abbreviation keeps := (respects (World := World) anyEvent anyTx).

(** The tick refresh touches neither the flag nor the Transaction Context,
    and returns whatever the fetches answer. *)
Lemma fetchTicksForModifiedOrderbooks_quiet upd obs :
  respects (World := World) quietEvent eq (fetchTicksForModifiedOrderbooks o upd obs).
Proof. unfold fetchTicksForModifiedOrderbooks. frame_auto. Qed.

Lemma tryValidate_keeps fuel (ctx : BlockCtx Prices) low high dIn dOut ob lowMsg :
  (15 < fuel)%nat ->
  keeps (tryValidate o fuel ctx low high dIn dOut ob lowMsg maxRecursionAttemptsArbSearch).
Proof.
  intros Hfuel st.
  destruct (tryValidate_rounds o 15 fuel ctx low high dIn dOut ob lowMsg st Hfuel)
    as (msg & amt & st' & evs & Hrun & Hflag & _ & Hev & _).
  exists (msg, amt, None), st'. split; [exact Hrun|].
  split_and!; try done. exists evs. split; [done|]. by apply Forall_forall.
Qed.
Hint Resolve tryValidate_keeps : frames.

Lemma fillImmediate_keeps (ctx : BlockCtx Prices) msgCtx : keeps (fillImmediate o ctx msgCtx).
Proof. unfold fillImmediate, executeTx. frame_auto. Qed.
Hint Resolve fillImmediate_keeps : frames.

Lemma computePerfectArbAmountIfExists_keeps fuel (ctx : BlockCtx Prices) p dIn dOut ob :
  (15 < fuel)%nat -> keeps (computePerfectArbAmountIfExists o fuel ctx p dIn dOut ob).
Proof.
  intros Hfuel. unfold computePerfectArbAmountIfExists, executeOrBatch, validateArb. frame_auto.
Qed.
Hint Resolve computePerfectArbAmountIfExists_keeps : frames.

Lemma processOrderBook_keeps fuel (ctx : BlockCtx Prices) ob :
  (15 < fuel)%nat -> keeps (processOrderBook o fuel ctx ob).
Proof.
  intros Hfuel. unfold processOrderBook, fillBothDirections, getFillableOrders. frame_auto.
Qed.
Hint Resolve processOrderBook_keeps : frames.

Lemma tryFill_keeps (ctx : BlockCtx Prices) : keeps (tryFill o ctx).
Proof. unfold tryFill, simulateMsgs, executeTx. frame_auto. Qed.
Hint Resolve tryFill_keeps : frames.

Lemma fillWithFallback_keeps (ctx : BlockCtx Prices) : keeps (fillWithFallback o ctx).
Proof. unfold fillWithFallback. frame_auto. Qed.
Hint Resolve fillWithFallback_keeps : frames.

(** When the batch fill fails and the batch does not hold exactly one
    message, every message gets its attempt and the call returns nil,
    whatever the attempts answer. *)
Lemma fillWithFallback_failures_not_propagated (ctx : BlockCtx Prices) (st st1 : State World) e :
  tryFill o ctx st = Some (Some e, st1) ->
  length (txctx.GetMsgs (txCtx st)) <> 1%nat ->
  exists st', fillWithFallback o ctx st = Some (None, st').
Proof.
  intros Hfill Hlen. unfold fillWithFallback. unfold bind at 1, GetTxCtx.
  unfold bind at 1. rewrite Hfill.
  destruct (Nat.eqb_spec (length (txctx.GetMsgs (txCtx st))) 1) as [?|_]; [done|].
  unfold bind at 1. unfold logger at 1. unfold emit at 1.
  set (st2 := mkState _ _ _ _).
  set (attempt := fun msg : MsgContext => _).
  assert (Hloop : keeps (forEach (txctx.GetMsgs (txCtx st)) attempt))
    by (subst attempt; frame_auto).
  destruct (Hloop st2) as ([] & st3 & Hrun & _).
  unfold bind at 1. rewrite Hrun. by eexists.
Qed.

Lemma processBlockLocked_keeps fuel blockHeight obs :
  (15 < fuel)%nat -> keeps (processBlockLocked o fuel blockHeight obs).
Proof. intros Hfuel. unfold processBlockLocked, blockctxNew. frame_auto. Qed.

(** C4, as the code has it: a call returns with the flag as it found it.
    A call that finds the flag clear takes it and has put it back to false
    when it returns, on every path.  A call that finds the flag set asks the
    pool registry, refreshes the ticks of the updated pools and then returns:
    it leaves the flag and the Transaction Context untouched, fetches no
    balances or prices, simulates and executes nothing, and its error is nil
    whenever the registry answered (and the registry's error otherwise). *)
Theorem ProcessEndBlock_single_flight fuel blockHeight upd (st : State World) :
  (15 < fuel)%nat ->
  exists err st',
    ProcessEndBlock o fuel blockHeight upd st = Some (err, st')
    /\ (atomicBool st = false -> atomicBool st' = false)
    /\ (atomicBool st = true ->
        atomicBool st' = true
        /\ txCtx st' = txCtx st
        /\ (exists evs, events st' = events st ++ evs /\ Forall quietEvent evs)
        /\ (forall obs w,
              extGetAllCanonicalOrderbookPoolIDs o (world st) = (Ok obs, w) -> err = None)
        /\ (forall e w,
              extGetAllCanonicalOrderbookPoolIDs o (world st) = (Fail e, w) -> err = Some e)).
Proof.
  intros Hfuel. unfold ProcessEndBlock. unfold bind at 1, call.
  destruct (extGetAllCanonicalOrderbookPoolIDs o (world st)) as [[obs|e] w].
  - (* the registry answered *)
    set (st1 := mkState w (atomicBool st) (txCtx st) (events st ++ [EvGetCanonical])).
    destruct (fetchTicksForModifiedOrderbooks_quiet upd obs st1)
      as (terr & st2 & Hticks & Hflag2 & Htx2 & evs & Hev2 & Hquiet).
    unfold bind at 1. rewrite Hticks.
    unfold bind at 1, CompareAndSwap. rewrite Hflag2. cbn [atomicBool st1].
    destruct (atomicBool st) eqn:Hflag; cbn [Bool.eqb negb].
    + (* the flag is set: the block is skipped *)
      eexists None, _. split; [reflexivity|]. split; [done|]. intros _.
      cbn. split_and!; try done.
      exists ((EvGetCanonical :: evs) ++ [EvLog Info "orderbook filler is already in progress"]).
      split.
      * rewrite Hev2. cbn. by rewrite <- !app_assoc.
      * apply Forall_app. split; [by constructor | by repeat constructor].
    + (* the flag is taken, the block processed, the flag put back *)
      destruct (processBlockLocked_keeps fuel blockHeight obs Hfuel
                  (mkState (world st2) true (txCtx st2) (events st2)))
        as (err & st3 & Hrun & _).
      exists err. eexists. unfold bind, Store, ret. rewrite Hrun. cbn.
      split; [reflexivity|]. split; [done | intros [=]].
  - (* the registry failed *)
    eexists (Some e), _. split; [reflexivity|]. cbn. split; [done|]. intros Hflag.
    split_and!; try done.
    + exists [EvGetCanonical; EvLog Error "failed to get all canonical orderbook pool IDs"].
      split; [by rewrite <- app_assoc | by repeat constructor].
    + by intros e' w' [= <- _].
Qed.

End Orchestrator.

Lemma ProcessEndBlock_single_flight_witness :
  exists err st',
    ProcessEndBlock (Scenario.plugin false false false false) 16 7 {[1]} Scenario.busy
      = Some (err, st')
    /\ atomicBool st' = true
    /\ txCtx st' = txCtx Scenario.busy.
Proof.
  destruct (ProcessEndBlock_single_flight (Scenario.plugin false false false false) 16 7 {[1]}
              Scenario.busy ltac:(lia))
    as (err & st' & Hrun & _ & Hbusy).
  destruct (Hbusy eq_refl) as (Hflag & Htx & _).
  by exists err, st'.
Defined.

(** C4, as the design text words it, fails: the tick refresh comes before the
    flag is tested, so a skipped call has refreshed the ticks of pool 1. *)
Lemma ProcessEndBlock_skipped_call_refreshes_ticks :
  ~ skipped_call_is_silent (Scenario.plugin false false false false) 16 7 {[1]} Scenario.busy.
Proof.
  intros Hsilent. destruct (Hsilent eq_refl) as (st' & Hrun & _ & _ & evs & Hev & Hall).
  vm_compute in Hrun. injection Hrun as <-. cbn in Hev. subst evs.
  apply Forall_cons in Hall as [_ Hall]. apply Forall_cons in Hall as [Htick _].
  exact Htick.
Qed.

(** ** Three runs of a block *)

(** C1, on the code: both pools yield a high value winner whose immediate
    execution fails, so the batch holds two messages; its simulation fails
    and the fallback runs.  Each of the two fallback attempts simulates the
    whole batch of the Block Context again: no attempt works on a
    single-message Transaction Context. *)
Theorem ProcessEndBlock_fallback_refills_whole_batch :
  exists st',
    ProcessEndBlock (Scenario.plugin false true true false) 16 7 {[1]} Scenario.idle
      = Some (None, st')
    /\ txctx.GetSDKMsgs (txCtx st') = ["swap/uusdc/uatom"; "swap/uusdc/uosmo"]
    /\ simulated (events st')
       = [ ["swap/uusdc/uatom"; "swap/uusdc/uosmo"];
           ["swap/uusdc/uatom"; "swap/uusdc/uosmo"];
           ["swap/uusdc/uatom"; "swap/uusdc/uosmo"] ].
Proof. eexists. split; [vm_compute; reflexivity|]. split; reflexivity. Qed.

(** C2, on the code: every quote is low value.  Both pools yield a winner,
    no immediate execution is attempted, and the winners are added with the
    flag of an executed message: the batch stays empty, the final [tryFill]
    has nothing to fill, and nothing is ever simulated or executed. *)
Theorem ProcessEndBlock_low_value_winner_is_not_batched :
  exists st',
    ProcessEndBlock (Scenario.plugin false false false true) 16 7 {[1]} Scenario.idle
      = Some (None, st')
    /\ In (EvLog Info "passed orderbook asks") (events st')
    /\ txctx.GetMsgs (txCtx st') = []
    /\ usedPools (txCtx st') = [1; 2]
    /\ simulated (events st') = []
    /\ executed (events st') = [].
Proof.
  eexists. split; [vm_compute; reflexivity|].
  split; [cbn; tauto|]. by split_and!.
Qed.

(** C3, on the code: the tick query of the updated pool 1 fails and the
    refresh step reports it, yet [ProcessEndBlock] goes on to fetch balances
    and prices and to execute fills, and returns a nil error. *)
Theorem ProcessEndBlock_ignores_tick_refresh_failure :
  exists st0 st',
    fetchTicksForModifiedOrderbooks (Scenario.plugin true false false false) {[1]}
                                    Scenario.pools Scenario.idle
      = Some (Some "tick query failed", st0)
    /\ ProcessEndBlock (Scenario.plugin true false false false) 16 7 {[1]} Scenario.idle
       = Some (None, st')
    /\ In (EvLog Error "failed to fetch ticks for orderbook") (events st')
    /\ In EvAllBalances (events st')
    /\ length (executed (events st')) = 2%nat.
Proof.
  eexists _, _. split; [vm_compute; reflexivity|]. split; [vm_compute; reflexivity|].
  split; [cbn; tauto|]. split; [cbn; tauto|]. reflexivity.
Qed.

(** * Further properties of the code *)

(** ** How the search moves inside its band *)

Section SearchShape.
Context {World Prices : Type} (o : Externals World Prices).

Lemma probesWithin_widen low high low' high' dIn dOut ob evs :
  low <= low' -> high' <= high ->
  Forall (probesWithin low' high' dIn dOut ob) evs ->
  Forall (probesWithin low high dIn dOut ob) evs.
Proof.
  intros Hl Hh Hall. eapply Forall_impl; [exact Hall|].
  intros [] ; cbn; try done.
  intros (? & ? & ? & ?). split_and!; try done; lia.
Qed.

(** X1: a search only ever validates amounts between its two bounds, and
    only for the direction and pool it was asked about. *)
Theorem tryValidate_probes_within_band (n : nat) :
  forall fuel (ctx : BlockCtx Prices) low high dIn dOut ob lowMsg (st : State World),
    (n < fuel)%nat ->
    low <= high ->
    exists res st' evs,
      tryValidate o fuel ctx low high dIn dOut ob lowMsg (Z.of_nat n) st = Some (res, st')
      /\ events st' = events st ++ evs
      /\ Forall (probesWithin low high dIn dOut ob) evs.
Proof.
  induction n as [|n IH]; intros fuel ctx low high dIn dOut ob lowMsg st Hfuel Hband;
    (destruct fuel as [|fuel]; [lia|]).
  - exists (lowMsg, low, None), st, []. cbn. rewrite app_nil_r. by split_and!.
  - cbn [tryValidate].
    replace (Z.of_nat (S n) =? 0) with false by (symmetry; apply Z.eqb_neq; lia).
    replace (Z.of_nat (S n) - 1) with (Z.of_nat n) by lia.
    rewrite mid_eq. set (mid := (low + high + 1) / 2).
    assert (Hmid : low <= mid <= high) by by apply mid_between.
    clearbody mid.
    unfold bind at 1, validateArb, call.
    destruct (extValidateArb o ctx mid dIn dOut ob (world st)) as [r w].
    set (ev := EvValidateArb mid dIn dOut ob r).
    set (st1 := mkState w (atomicBool st) (txCtx st) (events st ++ [ev])).
    assert (Hev : probesWithin low high dIn dOut ob ev) by by cbn.
    destruct r as [midMsg|e];
      [destruct (GetMaxFeeCap lowMsg <=? GetMaxFeeCap midMsg)|].
    { destruct (IH fuel ctx mid high dIn dOut ob midMsg st1 ltac:(lia) ltac:(lia))
        as (res & st2 & evs & Hrun & Hevs & Hall).
      exists res, st2, (ev :: evs). split_and!; try done.
      - rewrite Hevs. subst st1. cbn. by rewrite <- app_assoc.
      - constructor; [done|]. eapply probesWithin_widen; [| |exact Hall]; lia. }
    all: destruct (IH fuel ctx low mid dIn dOut ob lowMsg st1 ltac:(lia) ltac:(lia))
        as ([[top topAmt] terr] & st2 & evs & Hrun & Hevs & Hall).
    all: unfold bind; rewrite Hrun.
    all: assert (Hall' : Forall (probesWithin low high dIn dOut ob) (ev :: evs))
        by (constructor; [done|]; eapply probesWithin_widen; [| |exact Hall]; lia).
    all: assert (Hevs' : events st2 = events st ++ ev :: evs)
        by (rewrite Hevs; subst st1; cbn; by rewrite <- app_assoc).
    all: destruct terr; [|destruct (GetMaxFeeCap lowMsg <=? GetMaxFeeCap top)];
      eexists _, st2, (ev :: evs); by split_and!.
Qed.

(** X2: when no midpoint does at least as well as the baseline (its
    validation fails or scores lower), the search hands the baseline back,
    context and amount. *)
Theorem tryValidate_all_rejected_returns_baseline (n : nat) :
  forall fuel (ctx : BlockCtx Prices) low high dIn dOut ob lowMsg (st : State World),
    (n < fuel)%nat ->
    (forall a w,
        match (extValidateArb o ctx a dIn dOut ob w).1 with
        | Ok m => GetMaxFeeCap m < GetMaxFeeCap lowMsg
        | Fail _ => True
        end) ->
    exists st',
      tryValidate o fuel ctx low high dIn dOut ob lowMsg (Z.of_nat n) st
      = Some (lowMsg, low, None, st').
Proof.
  induction n as [|n IH]; intros fuel ctx low high dIn dOut ob lowMsg st Hfuel Hrej;
    (destruct fuel as [|fuel]; [lia|]).
  - by exists st.
  - cbn [tryValidate].
    replace (Z.of_nat (S n) =? 0) with false by (symmetry; apply Z.eqb_neq; lia).
    replace (Z.of_nat (S n) - 1) with (Z.of_nat n) by lia.
    set (mid := Dec.TruncateInt _).
    unfold bind at 1, validateArb, call.
    pose proof (Hrej mid (world st)) as Hmid.
    destruct (extValidateArb o ctx mid dIn dOut ob (world st)) as [r w]. cbn in Hmid.
    set (st1 := mkState _ _ _ _).
    destruct (IH fuel ctx low mid dIn dOut ob lowMsg st1 ltac:(lia) Hrej) as (st2 & Hrun).
    destruct r as [midMsg|e].
    + replace (GetMaxFeeCap lowMsg <=? GetMaxFeeCap midMsg) with false
        by (symmetry; apply Z.leb_gt; lia).
      unfold bind. rewrite Hrun. rewrite Z.leb_refl. by exists st2.
    + unfold bind. rewrite Hrun. rewrite Z.leb_refl. by exists st2.
Qed.

Lemma halve_gap (low high : Z) :
  low <= high -> high - (low + high + 1) / 2 = (high - low) / 2.
Proof.
  intros H.
  pose proof (Z.div_mod (low + high + 1) 2 ltac:(lia)) as E1.
  pose proof (Z.mod_pos_bound (low + high + 1) 2 ltac:(lia)) as B1.
  pose proof (Z.div_mod (high - low) 2 ltac:(lia)) as E2.
  pose proof (Z.mod_pos_bound (high - low) 2 ltac:(lia)) as B2.
  lia.
Qed.

(** X3: when every amount of the band validates and the fee cap does not
    drop as the amount grows (ties included), each round moves the lower
    bound to the midpoint, and the search returns the upper bound less the
    width of the band halved once per round: the upper bound itself as soon
    as the band is narrower than [2 ^ n]. *)
Theorem tryValidate_climbs_to_the_top (n : nat) (f : Z -> Z) :
  forall fuel (ctx : BlockCtx Prices) low high dIn dOut ob lowMsg (st : State World),
    (n < fuel)%nat ->
    low <= high ->
    (forall a b, a <= b -> f a <= f b) ->
    GetMaxFeeCap lowMsg <= f low ->
    (forall a w, low <= a <= high ->
        exists m w', extValidateArb o ctx a dIn dOut ob w = (Ok m, w') /\ GetMaxFeeCap m = f a) ->
    exists msg st',
      tryValidate o fuel ctx low high dIn dOut ob lowMsg (Z.of_nat n) st
      = Some (msg, high - (high - low) / 2 ^ Z.of_nat n, None, st')
      /\ (high - low < 2 ^ Z.of_nat n ->
          tryValidate o fuel ctx low high dIn dOut ob lowMsg (Z.of_nat n) st
          = Some (msg, high, None, st')).
Proof.
  intros fuel ctx low high dIn dOut ob lowMsg st Hfuel Hband Hmono Hbase Hval.
  assert (Hmain : exists msg st',
    tryValidate o fuel ctx low high dIn dOut ob lowMsg (Z.of_nat n) st
    = Some (msg, high - (high - low) / 2 ^ Z.of_nat n, None, st')).
  { revert fuel low lowMsg st Hfuel Hband Hbase Hval.
    induction n as [|n IH]; intros fuel low lowMsg st Hfuel Hband Hbase Hval;
      (destruct fuel as [|fuel]; [lia|]).
    - exists lowMsg, st.
      replace (high - (high - low) / 2 ^ Z.of_nat 0) with low
        by (change (2 ^ Z.of_nat 0) with 1; rewrite Z.div_1_r; lia).
      reflexivity.
    - cbn [tryValidate].
      replace (Z.of_nat (S n) =? 0) with false by (symmetry; apply Z.eqb_neq; lia).
      replace (Z.of_nat (S n) - 1) with (Z.of_nat n) by lia.
      rewrite mid_eq.
      pose proof (mid_between low high Hband) as Hmid.
      pose proof (halve_gap low high Hband) as Hgap.
      set (mid := (low + high + 1) / 2) in *.
      unfold bind at 1, validateArb, call.
      destruct (Hval mid (world st) Hmid) as (m & w' & Hext & Hfee). rewrite Hext.
      replace (GetMaxFeeCap lowMsg <=? GetMaxFeeCap m) with true
        by (symmetry; apply Z.leb_le; pose proof (Hmono low mid ltac:(lia)); lia).
      set (st1 := mkState _ _ _ _).
      destruct (IH fuel mid m st1 ltac:(lia) ltac:(lia) ltac:(lia)) as (msg & st2 & Hrun).
      { intros a w Ha. apply Hval. lia. }
      exists msg, st2. rewrite Hrun.
      replace ((high - low) / 2 ^ Z.of_nat (S n)) with ((high - mid) / 2 ^ Z.of_nat n); [done|].
      rewrite Hgap, Nat2Z.inj_succ, Z.pow_succ_r by lia.
      rewrite Z.div_div by lia. done. }
  destruct Hmain as (msg & st' & Hrun). exists msg, st'. split; [exact Hrun|].
  intros Hnarrow. rewrite Hrun. rewrite Z.div_small by lia. by rewrite Z.sub_0_r.
Qed.

End SearchShape.

(** ** What a direction and a pool cost and report *)

Lemma validations_app (evs evs' : list Event) :
  validations (evs ++ evs') = validations evs ++ validations evs'.
Proof. apply omap_app. Qed.

Lemma fillableQueries_app (evs evs' : list Event) :
  fillableQueries (evs ++ evs') = fillableQueries evs ++ fillableQueries evs'.
Proof. apply omap_app. Qed.

Lemma tickFetches_app (evs evs' : list Event) :
  tickFetches (evs ++ evs') = tickFetches evs ++ tickFetches evs'.
Proof. apply omap_app. Qed.

Lemma validations_length (evs : list Event) :
  Forall isValidateArb evs -> length (validations evs) = length evs.
Proof.
  induction 1 as [|e evs He _ IH]; [done|].
  destruct e; try done. cbn. f_equal. exact IH.
Qed.

Lemma fillableQueries_none (evs : list Event) :
  Forall notFillable evs -> fillableQueries evs = [].
Proof.
  induction 1 as [|e evs He _ IH]; [done|].
  destruct e; try done; exact IH.
Qed.

Section Pipeline.
Context {World Prices : Type} (o : Externals World Prices).

Local Abbreviation keeps := (respects (World := World) anyEvent anyTx).
Local Abbreviation spares := (respects (World := World) notFillable anyTx).

#[local] Hint Resolve tryValidate_keeps fillImmediate_keeps
  computePerfectArbAmountIfExists_keeps processOrderBook_keeps tryFill_keeps
  fillWithFallback_keeps : frames.

Lemma tryValidate_spares fuel (ctx : BlockCtx Prices) low high dIn dOut ob lowMsg :
  (15 < fuel)%nat ->
  spares (tryValidate o fuel ctx low high dIn dOut ob lowMsg maxRecursionAttemptsArbSearch).
Proof.
  intros Hfuel st.
  destruct (tryValidate_rounds o 15 fuel ctx low high dIn dOut ob lowMsg st Hfuel)
    as (msg & amt & st' & evs & Hrun & Hflag & _ & Hev & _ & Hall & _).
  exists (msg, amt, None), st'. split; [exact Hrun|].
  split_and!; try done. exists evs. split; [done|].
  eapply Forall_impl; [exact Hall|]. by intros [].
Qed.
#[local] Hint Resolve tryValidate_spares : frames.

Lemma computePerfectArbAmountIfExists_spares fuel (ctx : BlockCtx Prices) p dIn dOut ob :
  (15 < fuel)%nat -> spares (computePerfectArbAmountIfExists o fuel ctx p dIn dOut ob).
Proof.
  intros Hfuel.
  unfold computePerfectArbAmountIfExists, executeOrBatch, fillImmediate, executeTx, validateArb.
  frame_auto.
Qed.
#[local] Hint Resolve computePerfectArbAmountIfExists_spares : frames.

Lemma fillBothDirections_spares fuel (ctx : BlockCtx Prices) ob ask bid :
  (15 < fuel)%nat -> spares (fillBothDirections o fuel ctx ob ask bid).
Proof. intros Hfuel. unfold fillBothDirections. frame_auto. Qed.

Lemma fillWithFallback_spares (ctx : BlockCtx Prices) : spares (fillWithFallback o ctx).
Proof. unfold fillWithFallback, tryFill, simulateMsgs, executeTx. frame_auto. Qed.

(** What the run of one direction looks like from outside: it returns, and
    the first thing it records is the validation of the proposed amount. *)
Lemma computePerfectArbAmountIfExists_run fuel (ctx : BlockCtx Prices) p dIn dOut ob
    (st : State World) :
  (15 < fuel)%nat ->
  exists res st' r evs,
    computePerfectArbAmountIfExists o fuel ctx p dIn dOut ob st = Some (res, st')
    /\ events st' = events st ++ EvValidateArb p dIn dOut ob r :: evs.
Proof.
  intros Hfuel. unfold computePerfectArbAmountIfExists. unfold bind at 1, validateArb, call.
  destruct (extValidateArb o ctx p dIn dOut ob (world st)) as [r w].
  set (st1 := mkState _ _ _ _).
  set (k := match r with Ok _ => _ | Fail _ => _ end).
  assert (Hk : keeps k) by (subst k; unfold executeOrBatch; frame_auto).
  destruct (Hk st1) as (res & st' & Hrun & _ & _ & evs & Hev & _).
  exists res, st', r, evs. split; [exact Hrun|].
  rewrite Hev. subst st1. cbn. by rewrite <- app_assoc.
Qed.

(** X4: a direction costs exactly sixteen validations when the proposed
    amount validates (the proposal and fifteen midpoints) and exactly one
    when it does not. *)
Theorem computePerfectArbAmountIfExists_validation_count
    fuel (ctx : BlockCtx Prices) p dIn dOut ob (st : State World) r st1 :
  (15 < fuel)%nat ->
  validateArb o ctx p dIn dOut ob st = Some (r, st1) ->
  exists res st' mids,
    computePerfectArbAmountIfExists o fuel ctx p dIn dOut ob st = Some (res, st')
    /\ validations (events st') = validations (events st) ++ p :: mids
    /\ length mids = match r with Ok _ => 15%nat | Fail _ => 0%nat end.
Proof.
  intros Hfuel Hval.
  destruct (validateArb_run o _ _ _ _ _ _ _ _ Hval) as (_ & _ & Hev1).
  destruct r as [msg0|e].
  - destruct (computePerfectArbAmountIfExists_valid o fuel ctx p dIn dOut ob st msg0 st1
                Hfuel Hval)
      as (winner & amount & st2 & st3 & evs & _ & Hexec & Hrun & Hev2 & Hlen & Hall & _).
    assert (Hev3 : validations (events st3) = validations (events st2)).
    { destruct (IsLowValue winner) eqn:Hv.
      - rewrite executeOrBatch_low_value in Hexec by done. by injection Hexec as <-.
      - destruct (executeOrBatch_high_value o ctx winner amount st2 Hv)
          as (rx & st3' & Hexec' & _ & _ & Hout).
        rewrite Hexec in Hexec'. injection Hexec' as <-.
        destruct rx; destruct Hout as [-> _]; rewrite validations_app; cbn;
          by rewrite app_nil_r. }
    exists (amount, None), st3, (validations evs). split_and!; try done.
    + rewrite Hev3, Hev2, Hev1, !validations_app. cbn. by rewrite <- app_assoc.
    + by rewrite validations_length.
  - exists (IntZeroValue, Some e), st1, []. split_and!; try done.
    + unfold computePerfectArbAmountIfExists, bind. by rewrite Hval.
    + by rewrite Hev1, validations_app.
Qed.

(** X5: [processOrderBook] returns an error only when the query of the
    fillable orders fails, and then it has done nothing else.  Otherwise it
    returns nil and has tried both directions, whatever the first one
    answered: the ask side from quote to base and the bid side from base to
    quote, each with the smaller of the fillable amount and the wallet
    balance. *)
Theorem processOrderBook_error_only_from_fillable_orders
    fuel (ctx : BlockCtx Prices) ob (st : State World) r st1 :
  (15 < fuel)%nat ->
  getFillableOrders o ctx ob st = Some (r, st1) ->
  exists err st',
    processOrderBook o fuel ctx ob st = Some (err, st')
    /\ match r with
       | Fail e => err = Some e /\ st' = st1
       | Ok (fillAsk, fillBid) =>
           err = None
           /\ exists ra rb,
               In (EvValidateArb (Z.min fillAsk (AmountOf (GetUserBalances ctx) (Quote ob)))
                                 (Quote ob) (Base ob) (PoolID ob) ra) (events st')
               /\ In (EvValidateArb (Z.min fillBid (AmountOf (GetUserBalances ctx) (Base ob)))
                                    (Base ob) (Quote ob) (PoolID ob) rb) (events st')
       end.
Proof.
  intros Hfuel Hfill. unfold processOrderBook. unfold bind at 1. rewrite Hfill.
  destruct r as [[fillAsk fillBid]|e]; [|by eexists _, _].
  set (balQ := AmountOf (GetUserBalances ctx) (Quote ob)).
  set (balB := AmountOf (GetUserBalances ctx) (Base ob)).
  set (clampAsk := if balQ <? fillAsk then _ else _).
  assert (HclampAsk : exists s2, clampAsk st1 = Some (Z.min fillAsk balQ, s2)).
  { subst clampAsk. destruct (Z.ltb_spec balQ fillAsk).
    - rewrite Z.min_r by lia. by eexists.
    - rewrite Z.min_l by lia. by eexists. }
  destruct HclampAsk as (s2 & Hs2). unfold bind at 1. rewrite Hs2.
  set (clampBid := if balB <? fillBid then _ else _).
  assert (HclampBid : exists s3, clampBid s2 = Some (Z.min fillBid balB, s3)).
  { subst clampBid. destruct (Z.ltb_spec balB fillBid).
    - rewrite Z.min_r by lia. by eexists.
    - rewrite Z.min_l by lia. by eexists. }
  destruct HclampBid as (s3 & Hs3). unfold bind at 1. rewrite Hs3.
  unfold fillBothDirections.
  destruct (computePerfectArbAmountIfExists_run fuel ctx (Z.min fillAsk balQ)
              (Quote ob) (Base ob) (PoolID ob) s3 Hfuel)
    as (res1 & s4 & ra & evs1 & Hrun1 & Hev1).
  unfold bind at 1. rewrite Hrun1.
  set (log1 := match res1.2 with Some _ => _ | None => _ end).
  assert (Hlog1 : exists s5 l1, log1 s4 = Some (tt, s5) /\ events s5 = events s4 ++ [l1]).
  { subst log1. destruct (res1.2); by eexists _, _. }
  destruct Hlog1 as (s5 & l1 & Hs5 & Hev5). unfold bind at 1. rewrite Hs5.
  destruct (computePerfectArbAmountIfExists_run fuel ctx (Z.min fillBid balB)
              (Base ob) (Quote ob) (PoolID ob) s5 Hfuel)
    as (res2 & s6 & rb & evs2 & Hrun2 & Hev2).
  unfold bind at 1. rewrite Hrun2.
  set (log2 := match res2.2 with Some _ => _ | None => _ end).
  assert (Hlog2 : exists s7 l2, log2 s6 = Some (tt, s7) /\ events s7 = events s6 ++ [l2]).
  { subst log2. destruct (res2.2); by eexists _, _. }
  destruct Hlog2 as (s7 & l2 & Hs7 & Hev7). unfold bind at 1. rewrite Hs7.
  exists None, s7. split; [reflexivity|]. split; [done|]. exists ra, rb.
  rewrite Hev7, Hev2, Hev5, Hev1, !in_app_iff. cbn. tauto.
Qed.

End Pipeline.

(** ** The block orchestrator, step by step *)

Lemma firstError_app (errs errs' : list error) :
  firstError (errs ++ errs') <> None <-> firstError errs <> None \/ firstError errs' <> None.
Proof.
  induction errs as [|[e|] errs IH]; cbn.
  - split; [by right | by intros [?|?]].
  - split; [by left | done].
  - exact IH.
Qed.

Section Steps.
Context {World Prices : Type} (o : Externals World Prices).

Local Abbreviation keeps := (respects (World := World) anyEvent anyTx).
Local Abbreviation spares := (respects (World := World) notFillable anyTx).

#[local] Hint Resolve tryValidate_keeps fillImmediate_keeps
  computePerfectArbAmountIfExists_keeps processOrderBook_keeps tryFill_keeps
  fillWithFallback_keeps fillBothDirections_spares fillWithFallback_spares : frames.

(** X6: the tick refresh fetches the canonical pools that the block updated,
    each once and in the order of the registry, and no other pool; the
    error it returns is non-nil exactly when a fetch failed and was
    logged. *)
Theorem fetchTicksForModifiedOrderbooks_fetches_updated_pools upd obs (st : State World) :
  exists err st' evs,
    fetchTicksForModifiedOrderbooks o upd obs st = Some (err, st')
    /\ events st' = events st ++ evs
    /\ tickFetches evs = PoolID <$> filter (fun ob => PoolID ob ∈ upd) obs
    /\ (err <> None <-> In (EvLog Error "failed to fetch ticks for orderbook") evs).
Proof.
  unfold fetchTicksForModifiedOrderbooks.
  set (body := fun canonicalOrderbookResult : CanonicalOrderBooksResult => _).
  assert (Hbody : forall ob (st : State World), exists errs st' evs,
    body ob st = Some (errs, st')
    /\ events st' = events st ++ evs
    /\ tickFetches evs = (if decide (PoolID ob ∈ upd) then [PoolID ob] else [])
    /\ (firstError errs <> None <-> In (EvLog Error "failed to fetch ticks for orderbook") evs)).
  { intros ob st0. subst body. cbn beta. case_bool_decide as Hin.
    - rewrite decide_True by done. unfold bind at 1, call.
      destruct (extFetchTicksForOrderbook o ob (world st0)) as [[e|] w].
      + eexists [Some e], _,
          [EvFetchTicks (PoolID ob); EvLog Error "failed to fetch ticks for orderbook"].
        split; [reflexivity|]. cbn. rewrite <- app_assoc. split_and!; try done.
        split; [intros _; by right; left | done].
      + eexists [None], _, [EvFetchTicks (PoolID ob)].
        split; [reflexivity|]. cbn. split_and!; try done.
        split; [done | by intros [?|?]].
    - rewrite decide_False by done. exists [], st0, []. cbn. rewrite app_nil_r.
      split_and!; try done; by split. }
  clearbody body.
  assert (Hloop : forall st : State World, exists errs st' evs,
    goEach obs body st = Some (errs, st')
    /\ events st' = events st ++ evs
    /\ tickFetches evs = PoolID <$> filter (fun ob => PoolID ob ∈ upd) obs
    /\ (firstError errs <> None <-> In (EvLog Error "failed to fetch ticks for orderbook") evs)).
  { clear st. induction obs as [|ob obs' IH]; intros st.
    - exists [], st, []. cbn. rewrite app_nil_r. split_and!; try done; by split.
    - cbn [goEach]. unfold bind at 1.
      destruct (Hbody ob st) as (errs1 & st1 & evs1 & Hrun1 & Hev1 & Hfetch1 & Herr1).
      rewrite Hrun1. unfold bind at 1.
      destruct (IH st1) as (errs2 & st2 & evs2 & Hrun2 & Hev2 & Hfetch2 & Herr2).
      rewrite Hrun2. exists (errs1 ++ errs2), st2, (evs1 ++ evs2).
      split_and!; try done.
      + rewrite Hev2, Hev1. by rewrite app_assoc.
      + rewrite tickFetches_app, Hfetch1, Hfetch2, filter_cons.
        by destruct (decide (PoolID ob ∈ upd)).
      + rewrite firstError_app, in_app_iff, Herr1, Herr2. done. }
  destruct (Hloop st) as (errs & st' & evs & Hrun & Hev & Hfetch & Herr).
  unfold bind. rewrite Hrun.
  exists (firstError errs), st', evs. split; [by destruct (firstError errs)|]. done.
Qed.

(** X7: [tryFill] sends at most one transaction per call, and only the
    Transaction Context whose messages it has just simulated; with an empty
    batch it returns nil and contacts nobody, and otherwise a nil error
    means that the transaction was sent. *)
Theorem tryFill_executes_what_it_simulated (ctx : BlockCtx Prices) (st : State World) :
  exists err st' evs,
    tryFill o ctx st = Some (err, st')
    /\ events st' = events st ++ evs
    /\ (length (executed evs) <= length (simulated evs) <= 1)%nat
    /\ (forall tx, In tx (executed evs) ->
          simulated evs = [txctx.GetSDKMsgs tx] /\ txCtx st' = tx)
    /\ (txctx.GetSDKMsgs (txCtx st) = [] -> err = None /\ st' = st)
    /\ (txctx.GetSDKMsgs (txCtx st) <> [] -> err = None -> length (executed evs) = 1%nat).
Proof.
  unfold tryFill. unfold bind at 1, GetTxCtx.
  destruct (txctx.GetSDKMsgs (txCtx st)) as [|m ms] eqn:Hmsgs.
  - exists None, st, []. cbn. rewrite app_nil_r. split_and!; try done. lia.
  - cbn [length Nat.eqb].
    unfold bind at 1, onTxCtx. unfold bind at 1. unfold bind at 1, simulateMsgs, call.
    cbn [world txCtx events atomicBool].
    set (ranked := txctx.RankAndFilterMsgs (extRank o) (txCtx st)).
    destruct (extSimulateMsgs o (txctx.GetSDKMsgs ranked) (world st)) as [[gas|e] w1].
    + unfold bind at 1, onTxCtx. unfold bind at 1. unfold bind at 1, executeTx, call.
      cbn [world txCtx events atomicBool].
      set (tx := txctx.UpdateAdjustedGasTotal gas ranked).
      destruct (extExecuteTx o (GetBlockHeight ctx) (GetGasPrice ctx) tx w1) as [[resp|e] w2];
        eexists _, _, [EvSimulate (txctx.GetSDKMsgs ranked); EvExecute tx];
        (split; [reflexivity|]); cbn; rewrite <- app_assoc;
        (split_and!; try done; try lia); intros tx' [<-|[]]; done.
    + eexists _, _, [EvSimulate (txctx.GetSDKMsgs ranked)].
      split; [reflexivity|]. cbn. split_and!; try done; lia.
Qed.

(** X8: [fillImmediate] leaves the shared Transaction Context alone and
    sends exactly one transaction of its own without simulating it; a
    failure of that transaction comes back wrapped, a success as nil. *)
Theorem fillImmediate_sends_one_transaction (ctx : BlockCtx Prices) msgCtx (st : State World) :
  exists err st' evs r w,
    fillImmediate o ctx msgCtx st = Some (err, st')
    /\ events st' = events st ++ evs
    /\ txCtx st' = txCtx st
    /\ atomicBool st' = atomicBool st
    /\ executed evs = [immediateTx msgCtx]
    /\ simulated evs = []
    /\ extExecuteTx o (GetBlockHeight ctx) (GetGasPrice ctx) (immediateTx msgCtx) (world st)
       = (r, w)
    /\ err = match r with
             | Ok _ => None
             | Fail e => Some ("failed to execute immediate fill transaction: " +:+ e)
             end.
Proof.
  unfold fillImmediate. fold (immediateTx msgCtx). unfold bind at 1, executeTx, call.
  destruct (extExecuteTx o (GetBlockHeight ctx) (GetGasPrice ctx) (immediateTx msgCtx) (world st))
    as [[resp|e] w].
  - eexists _, _, [EvExecute (immediateTx msgCtx); EvLog Info _], _, _.
    split; [reflexivity|]. cbn. rewrite <- app_assoc. by split_and!.
  - eexists _, _, [EvExecute (immediateTx msgCtx)], _, _.
    split; [reflexivity|]. by split_and!.
Qed.

(** X9: the batch fill with its fallback returns a non-nil error in one case
    only: the batch fill failed and the batch held exactly one message; the
    error is then the one of the batch fill.  A failed batch of any other
    size ends in nil, whatever the fallback attempts answer. *)
Theorem fillWithFallback_error_only_for_single_message_batch
    (ctx : BlockCtx Prices) (st : State World) :
  exists r st1 err st',
    tryFill o ctx st = Some (r, st1)
    /\ fillWithFallback o ctx st = Some (err, st')
    /\ err = (if (length (txctx.GetMsgs (txCtx st)) =? 1)%nat then r else None).
Proof.
  destruct (tryFill_keeps o ctx st) as (r & st1 & Hfill & _).
  exists r, st1.
  destruct r as [e|].
  - destruct (Nat.eqb_spec (length (txctx.GetMsgs (txCtx st))) 1) as [Hone|Hmany].
    + eexists _, _. split; [done|]. split; [|reflexivity].
      unfold fillWithFallback. unfold bind at 1, GetTxCtx. unfold bind at 1. rewrite Hfill.
      apply Nat.eqb_eq in Hone. rewrite Hone. reflexivity.
    + destruct (fillWithFallback_failures_not_propagated o ctx st st1 e Hfill Hmany)
        as (st' & Hrun).
      by exists None, st'.
  - eexists None, _. split; [done|]. split.
    + unfold fillWithFallback. unfold bind at 1, GetTxCtx. unfold bind at 1. rewrite Hfill.
      reflexivity.
    + by destruct (_ =? _)%nat.
Qed.

End Steps.

(** ** Hard aborts and the fan-out *)

Section Aborts.
Context {World Prices : Type} (o : Externals World Prices).

Local Abbreviation keeps := (respects (World := World) anyEvent anyTx).
Local Abbreviation spares := (respects (World := World) notFillable anyTx).

#[local] Hint Resolve tryValidate_keeps fillImmediate_keeps
  computePerfectArbAmountIfExists_keeps processOrderBook_keeps tryFill_keeps
  fillWithFallback_keeps fillBothDirections_spares fillWithFallback_spares : frames.

(** The way to the flag: registry, tick refresh, compare-and-swap. *)
Lemma ProcessEndBlock_acquires fuel blockHeight upd (st : State World) obs w1 terr st2 :
  atomicBool st = false ->
  extGetAllCanonicalOrderbookPoolIDs o (world st) = (Ok obs, w1) ->
  fetchTicksForModifiedOrderbooks o upd obs
    (mkState w1 false (txCtx st) (events st ++ [EvGetCanonical])) = Some (terr, st2) ->
  txCtx st2 = txCtx st
  /\ ProcessEndBlock o fuel blockHeight upd st
     = (let* err := processBlockLocked o fuel blockHeight obs in
        let* _ := Store false in
        ret err) (mkState (world st2) true (txCtx st) (events st2)).
Proof.
  intros Hflag Hreg Hticks.
  destruct (fetchTicksForModifiedOrderbooks_quiet o upd obs
              (mkState w1 false (txCtx st) (events st ++ [EvGetCanonical])))
    as (terr' & st2' & Hticks' & Hflag2 & Htx2 & _).
  rewrite Hticks in Hticks'. injection Hticks' as <- <-. cbn in Hflag2, Htx2.
  split; [done|].
  unfold ProcessEndBlock. unfold bind at 1, call. rewrite Hreg, Hflag.
  unfold bind at 1. rewrite Hticks.
  unfold bind at 1, CompareAndSwap. rewrite Hflag2. cbn [Bool.eqb negb]. by rewrite <- Htx2.
Qed.

(** X10: when the balance query fails, [ProcessEndBlock] returns its error
    with the flag released; it has asked for no prices, queried no fillable
    orders, validated, simulated and executed nothing, and the Transaction
    Context is as it was. *)
Theorem ProcessEndBlock_aborts_on_balance_failure
    fuel blockHeight upd (st : State World) obs w1 terr st2 e w3 :
  atomicBool st = false ->
  extGetAllCanonicalOrderbookPoolIDs o (world st) = (Ok obs, w1) ->
  fetchTicksForModifiedOrderbooks o upd obs
    (mkState w1 false (txCtx st) (events st ++ [EvGetCanonical])) = Some (terr, st2) ->
  extAllBalances o (world st2) = (Fail e, w3) ->
  ProcessEndBlock o fuel blockHeight upd st
  = Some (Some e, mkState w3 false (txCtx st) (events st2 ++ [EvAllBalances])).
Proof.
  intros Hflag Hreg Hticks Hbal.
  destruct (ProcessEndBlock_acquires fuel blockHeight upd st obs w1 terr st2 Hflag Hreg Hticks)
    as [_ ->].
  unfold bind at 1, processBlockLocked. unfold bind at 1, call. cbn [world].
  by rewrite Hbal.
Qed.

(** X11: when the price query fails, [ProcessEndBlock] returns its error
    with the flag released; prices were asked for the unique denoms of the
    canonical pools, and nothing was queried, validated, simulated or
    executed after that. *)
Theorem ProcessEndBlock_aborts_on_price_failure
    fuel blockHeight upd (st : State World) obs w1 terr st2 balances w3 e w4 :
  atomicBool st = false ->
  extGetAllCanonicalOrderbookPoolIDs o (world st) = (Ok obs, w1) ->
  fetchTicksForModifiedOrderbooks o upd obs
    (mkState w1 false (txCtx st) (events st ++ [EvGetCanonical])) = Some (terr, st2) ->
  extAllBalances o (world st2) = (Ok balances, w3) ->
  extGetPrices o (getUniqueOrderbookDenoms o obs) w3 = (Fail e, w4) ->
  ProcessEndBlock o fuel blockHeight upd st
  = Some (Some e, mkState w4 false (txCtx st)
                    (events st2 ++ [EvAllBalances; EvGetPrices (getUniqueOrderbookDenoms o obs)])).
Proof.
  intros Hflag Hreg Hticks Hbal Hprices.
  destruct (ProcessEndBlock_acquires fuel blockHeight upd st obs w1 terr st2 Hflag Hreg Hticks)
    as [_ ->].
  unfold bind at 1, processBlockLocked. unfold bind at 1, call. cbn [world].
  rewrite Hbal. unfold bind at 1. cbn [world]. rewrite Hprices. cbn.
  by rewrite <- app_assoc.
Qed.

(** One pool of the fan-out: the balance check decides whether its fillable
    orders are queried, once. *)
Lemma fanOut_pool fuel (ctx : BlockCtx Prices) ob (st : State World) :
  (15 < fuel)%nat ->
  exists results st' evs,
    (match extValidateUserBalances o ctx (Base ob) (Quote ob) with
     | Some _ =>
         let* _ := logger Info "Skipping orderbook due to insufficient balance" in
         ret []
     | None =>
         let* err := processOrderBook o fuel ctx ob in
         ret [(err, PoolID ob)]
     end) st = Some (results, st')
    /\ events st' = events st ++ evs
    /\ fillableQueries evs
       = (if decide (extValidateUserBalances o ctx (Base ob) (Quote ob) = None)
          then [PoolID ob] else []).
Proof.
  intros Hfuel. destruct (extValidateUserBalances o ctx (Base ob) (Quote ob)) as [e|].
  - rewrite decide_False by done. eexists _, _, [_]. split; [reflexivity|]. by split.
  - rewrite decide_True by done.
    unfold processOrderBook. unfold bind at 1. unfold bind at 1, getFillableOrders, call.
    destruct (extGetFillableOrders o ctx ob (world st)) as [r w].
    set (st1 := mkState _ _ _ _).
    set (k := match r with Ok _ => _ | Fail _ => _ end).
    assert (Hk : spares k) by (subst k; frame_auto).
    destruct (Hk st1) as (err & st2 & Hrun & _ & _ & evs & Hev & Hall).
    rewrite Hrun. eexists _, _, (EvFillable (PoolID ob) :: evs).
    split; [reflexivity|]. split.
    + rewrite Hev. subst st1. cbn. by rewrite <- app_assoc.
    + cbn. by rewrite fillableQueries_none.
Qed.

(** X12: once balances, prices and gas price are in, the fillable orders
    are queried for the pools that pass the balance check, each once and in
    the order of the registry, and for no pool that fails it. *)
Theorem processBlockLocked_processes_eligible_pools
    fuel blockHeight obs (st : State World) balances w1 prices w2 gasPrice w3 :
  (15 < fuel)%nat ->
  extAllBalances o (world st) = (Ok balances, w1) ->
  extGetPrices o (getUniqueOrderbookDenoms o obs) w1 = (Ok prices, w2) ->
  extGasPrice o w2 = (Ok gasPrice, w3) ->
  exists err st',
    processBlockLocked o fuel blockHeight obs st = Some (err, st')
    /\ fillableQueries (events st')
       = fillableQueries (events st)
         ++ (PoolID <$> filter
               (fun ob => extValidateUserBalances o
                            (mkBlockCtx balances prices gasPrice blockHeight)
                            (Base ob) (Quote ob) = None) obs).
Proof.
  intros Hfuel Hbal Hprices Hgas.
  set (ctx := mkBlockCtx balances prices gasPrice blockHeight).
  unfold processBlockLocked. unfold bind at 1, call. rewrite Hbal.
  unfold bind at 1. cbn [world]. rewrite Hprices.
  unfold bind at 1, blockctxNew. unfold bind at 1, call. cbn [world]. rewrite Hgas.
  unfold bind at 1, onTxCtx. unfold ret at 1. cbn [world atomicBool txCtx events]. fold ctx.
  set (st0 := mkState _ _ _ _).
  assert (Hst0 : fillableQueries (events st0) = fillableQueries (events st)).
  { subst st0. cbn. rewrite !fillableQueries_app. cbn. by rewrite !app_nil_r. }
  set (body := fun canonicalOrderbook : CanonicalOrderBooksResult => _).
  assert (Hbody : forall ob (s : State World), exists results s' evs,
    body ob s = Some (results, s')
    /\ events s' = events s ++ evs
    /\ fillableQueries evs
       = (if decide (extValidateUserBalances o ctx (Base ob) (Quote ob) = None)
          then [PoolID ob] else []))
    by (intros ob s; subst body; cbn beta; by apply fanOut_pool).
  clearbody body.
  assert (Hloop : forall pools (s : State World), exists results s',
    goEach pools body s = Some (results, s')
    /\ fillableQueries (events s')
       = fillableQueries (events s)
         ++ (PoolID <$> filter
               (fun ob => extValidateUserBalances o ctx (Base ob) (Quote ob) = None) pools)).
  { induction pools as [|ob pools IH]; intros s.
    - exists [], s. cbn. by rewrite app_nil_r.
    - cbn [goEach]. unfold bind at 1.
      destruct (Hbody ob s) as (r1 & s1 & evs1 & Hrun1 & Hev1 & Hq1).
      rewrite Hrun1. unfold bind at 1.
      destruct (IH s1) as (r2 & s2 & Hrun2 & Hq2). rewrite Hrun2.
      eexists _, _. split; [reflexivity|].
      rewrite Hq2, Hev1, fillableQueries_app, Hq1, filter_cons.
      destruct (decide (extValidateUserBalances o ctx (Base ob) (Quote ob) = None));
        cbn; by rewrite <- app_assoc. }
  destruct (Hloop obs st0) as (results & s1 & Hrun1 & Hq1).
  unfold bind at 1. rewrite Hrun1.
  set (collect := forEach results _).
  assert (Hcollect : spares collect) by (subst collect; frame_auto).
  destruct (Hcollect s1) as ([] & s2 & Hrun2 & _ & _ & evs2 & Hev2 & Hall2).
  unfold bind at 1. rewrite Hrun2.
  destruct (fillWithFallback_spares o ctx s2) as (err & s3 & Hrun3 & _ & _ & evs3 & Hev3 & Hall3).
  exists err, s3. split; [exact Hrun3|].
  rewrite Hev3, Hev2, !fillableQueries_app.
  rewrite (fillableQueries_none evs2), (fillableQueries_none evs3), !app_nil_r by done.
  by rewrite Hq1, Hst0.
Qed.

End Aborts.

(** ** The denom set, again *)

Section DenomSet.
Context {World Prices : Type} (o : Externals World Prices).

Lemma uniqueDenoms_size (obs : list CanonicalOrderBooksResult) :
  forall acc : gset string,
    (size (foldl (fun (uniqueDenoms : gset string) canonicalOrderbook =>
                    {[ Quote canonicalOrderbook ]} ∪ ({[ Base canonicalOrderbook ]} ∪ uniqueDenoms))
                 acc obs)
     <= size acc + 2 * length obs)%nat.
Proof.
  assert (Hadd : forall (d : string) (X : gset string), (size ({[ d ]} ∪ X) <= S (size X))%nat).
  { intros d X. rewrite size_union_alt, size_singleton.
    assert (Hsub : X ∖ {[ d ]} ⊆ X) by by apply subseteq_difference_l.
    pose proof (subseteq_size _ _ Hsub). lia. }
  induction obs as [|ob obs IH]; intros acc; cbn [foldl length].
  - lia.
  - etrans; [apply IH|].
    pose proof (Hadd (Quote ob) ({[ Base ob ]} ∪ acc)).
    pose proof (Hadd (Base ob) acc). lia.
Qed.

(** X13: the denom list does not depend on the order in which the registry
    lists the pools. *)
Theorem getUniqueOrderbookDenoms_order_irrelevant (obs obs' : list CanonicalOrderBooksResult) :
  obs ≡ₚ obs' ->
  getUniqueOrderbookDenoms o obs = getUniqueOrderbookDenoms o obs'.
Proof.
  intros Hperm. unfold getUniqueOrderbookDenoms. f_equal. apply set_eq. intros d.
  rewrite !elem_of_union, !uniqueDenoms_fold.
  split; (intros [?|[?|(ob & Hin & Hd)]]; [by left | by right; left | right; right]);
    exists ob; (split; [|done]).
  - by rewrite <- Hperm.
  - by rewrite Hperm.
Qed.

(** X14: the denom list is never empty and never longer than two denoms per
    pool plus the reference denom. *)
Theorem getUniqueOrderbookDenoms_size (obs : list CanonicalOrderBooksResult) :
  (1 <= length (getUniqueOrderbookDenoms o obs) <= 2 * length obs + 1)%nat.
Proof.
  unfold getUniqueOrderbookDenoms.
  set (X := foldl _ ∅ obs).
  change (length (elements ({[ BaseDenom o ]} ∪ X))) with (size ({[ BaseDenom o ]} ∪ X)).
  split.
  - assert (Hsub : ({[ BaseDenom o ]} : gset string) ⊆ {[ BaseDenom o ]} ∪ X)
      by apply union_subseteq_l.
    apply subseteq_size in Hsub. by rewrite size_singleton in Hsub.
  - rewrite size_union_alt, size_singleton.
    assert (Hsub : X ∖ {[ BaseDenom o ]} ⊆ X) by by apply subseteq_difference_l.
    apply subseteq_size in Hsub.
    pose proof (uniqueDenoms_size obs ∅) as Hsize. fold X in Hsize.
    rewrite size_empty in Hsize. lia.
Qed.

End DenomSet.

(** ** The mirror of an exchange order book *)

Section Mirror.
Import osmocexfillertypes.

Lemma elem_of_Bids (o : OrderbookData) (e : OrderbookEntry) :
  e ∈ Bids o <-> Direction e = "bid" /\ bids o !! Price e = Some (Size e).
Proof.
  unfold Bids. rewrite list_elem_of_fmap. split.
  - intros ([price size] & -> & Hin). by apply elem_of_map_to_list in Hin.
  - intros [Hdir Hlook]. exists (Price e, Size e). split.
    + destruct e as [d p s]. cbn in *. by subst.
    + by apply elem_of_map_to_list.
Qed.

Lemma elem_of_Asks (o : OrderbookData) (e : OrderbookEntry) :
  e ∈ Asks o <-> Direction e = "ask" /\ asks o !! Price e = Some (Size e).
Proof.
  unfold Asks. rewrite list_elem_of_fmap. split.
  - intros ([price size] & -> & Hin). by apply elem_of_map_to_list in Hin.
  - intros [Hdir Hlook]. exists (Price e, Size e). split.
    + destruct e as [d p s]. cbn in *. by subst.
    + by apply elem_of_map_to_list.
Qed.

(** X15: the listing of a side has one entry per price level, tagged with
    the side, carrying the size stored at that price. *)
Theorem Bids_and_Asks_list_each_level_once (o : OrderbookData) :
  NoDup (Price <$> Bids o)
  /\ NoDup (Price <$> Asks o)
  /\ length (Bids o) = size (bids o)
  /\ length (Asks o) = size (asks o)
  /\ (forall e, e ∈ Bids o <-> Direction e = "bid" /\ bids o !! Price e = Some (Size e))
  /\ (forall e, e ∈ Asks o <-> Direction e = "ask" /\ asks o !! Price e = Some (Size e)).
Proof.
  split_and!.
  - unfold Bids. rewrite <- list_fmap_compose. apply NoDup_fst_map_to_list.
  - unfold Asks. rewrite <- list_fmap_compose. apply NoDup_fst_map_to_list.
  - unfold Bids. by rewrite length_fmap, length_map_to_list.
  - unfold Asks. by rewrite length_fmap, length_map_to_list.
  - apply elem_of_Bids.
  - apply elem_of_Asks.
Qed.

(** X16: after [SetBid] the bid side lists the new level, no other level at
    that price, and every level it listed at another price; the ask side
    and the symbol are untouched.  The same holds for [SetAsk] with the
    sides exchanged. *)
Theorem Set_replaces_one_level (price size : string) (o : OrderbookData) :
  (forall e, e ∈ Bids (SetBid price size o)
             <-> e = mkEntry "bid" price size \/ (e ∈ Bids o /\ Price e <> price))
  /\ Asks (SetBid price size o) = Asks o
  /\ Symbol (SetBid price size o) = Symbol o
  /\ (forall e, e ∈ Asks (SetAsk price size o)
                <-> e = mkEntry "ask" price size \/ (e ∈ Asks o /\ Price e <> price))
  /\ Bids (SetAsk price size o) = Bids o
  /\ Symbol (SetAsk price size o) = Symbol o.
Proof.
  split_and!; try done.
  - intros [d p s]. rewrite !elem_of_Bids. cbn.
    destruct (decide (price = p)) as [->|Hne].
    + rewrite lookup_insert_eq. split.
      * intros [-> [= ->]]. by left.
      * intros [[= -> ->]|[_ ?]]; done.
    + rewrite lookup_insert_ne by done. split.
      * intros [-> Hl]. right. by split_and!.
      * intros [[= -> -> ->]|[[-> Hl] _]]; done.
  - intros [d p s]. rewrite !elem_of_Asks. cbn.
    destruct (decide (price = p)) as [->|Hne].
    + rewrite lookup_insert_eq. split.
      * intros [-> [= ->]]. by left.
      * intros [[= -> ->]|[_ ?]]; done.
    + rewrite lookup_insert_ne by done. split.
      * intros [-> Hl]. right. by split_and!.
      * intros [[= -> -> ->]|[[-> Hl] _]]; done.
Qed.

(** X17: after [RemoveBid] the bid side lists exactly the levels it listed
    at other prices, and the ask side is untouched; removing a price that
    has no level leaves the book as it is.  The same holds for [RemoveAsk]
    with the sides exchanged. *)
Theorem Remove_drops_one_level (price : string) (o : OrderbookData) :
  (forall e, e ∈ Bids (RemoveBid price o) <-> e ∈ Bids o /\ Price e <> price)
  /\ Asks (RemoveBid price o) = Asks o
  /\ (bids o !! price = None -> RemoveBid price o = o)
  /\ (forall e, e ∈ Asks (RemoveAsk price o) <-> e ∈ Asks o /\ Price e <> price)
  /\ Bids (RemoveAsk price o) = Bids o
  /\ (asks o !! price = None -> RemoveAsk price o = o).
Proof.
  split_and!; try done.
  - intros [d p s]. rewrite !elem_of_Bids. cbn.
    destruct (decide (price = p)) as [->|Hne].
    + rewrite lookup_delete_eq. split; [by intros [_ ?] | by intros [_ ?]].
    + rewrite lookup_delete_ne by done. split; [by intros [-> ?] | by intros [[-> ?] _]].
  - intros Hnone. destruct o as [sym b a]. unfold RemoveBid. cbn in *.
    by rewrite delete_id.
  - intros [d p s]. rewrite !elem_of_Asks. cbn.
    destruct (decide (price = p)) as [->|Hne].
    + rewrite lookup_delete_eq. split; [by intros [_ ?] | by intros [_ ?]].
    + rewrite lookup_delete_ne by done. split; [by intros [-> ?] | by intros [[-> ?] _]].
  - intros Hnone. destruct o as [sym b a]. unfold RemoveAsk. cbn in *.
    by rewrite delete_id.
Qed.

(** X18: setting a level that was absent and removing it again gives the
    book back; a second [SetBid] at a price overwrites the first; updates at
    different prices, or on different sides, commute. *)
Theorem Set_and_Remove_compose (p q s t : string) (o : OrderbookData) :
  (bids o !! p = None -> RemoveBid p (SetBid p s o) = o)
  /\ SetBid p t (SetBid p s o) = SetBid p t o
  /\ (p <> q -> SetBid p s (SetBid q t o) = SetBid q t (SetBid p s o))
  /\ (p <> q -> RemoveBid p (SetBid q t o) = SetBid q t (RemoveBid p o))
  /\ SetBid p s (SetAsk q t o) = SetAsk q t (SetBid p s o)
  /\ RemoveBid p (SetAsk q t o) = SetAsk q t (RemoveBid p o).
Proof.
  destruct o as [sym b a]. unfold SetBid, SetAsk, RemoveBid. cbn. split_and!; try done.
  - intros Hnone. by rewrite delete_insert_eq, delete_id.
  - by rewrite insert_insert_eq.
  - intros Hne. by rewrite insert_insert_ne.
  - intros Hne. by rewrite delete_insert_ne.
Qed.

(** X19: a pair has an interchain denom for its base exactly when the base
    is one of the five listed symbols (any other symbol gives the empty
    string), and two listed symbols never share a denom. *)
Theorem BaseInterchainDenom_known_symbols (p p' : Pair) :
  (BaseInterchainDenom p <> ""
   <-> In (Base p) ["USDC"; "BTC"; "USDT"; "ETH"; "ATOM"])
  /\ (BaseInterchainDenom p <> "" ->
      BaseInterchainDenom p = BaseInterchainDenom p' -> Base p = Base p').
Proof.
  assert (Hknown : forall sym,
    mapIndex symbolToChainDenom sym <> ""
    <-> In sym ["USDC"; "BTC"; "USDT"; "ETH"; "ATOM"]).
  { intros sym. unfold symbolToChainDenom. cbn [mapIndex In].
    destruct (String.eqb_spec "USDC" sym) as [<-|?]; [split; [tauto | intros _; by cbn]|].
    destruct (String.eqb_spec "BTC" sym) as [<-|?]; [split; [tauto | intros _; by cbn]|].
    destruct (String.eqb_spec "USDT" sym) as [<-|?]; [split; [tauto | intros _; by cbn]|].
    destruct (String.eqb_spec "ETH" sym) as [<-|?]; [split; [tauto | intros _; by cbn]|].
    destruct (String.eqb_spec "ATOM" sym) as [<-|?]; [split; [tauto | intros _; by cbn]|].
    split; [intros Hne; exfalso; by apply Hne | tauto]. }
  split; [apply Hknown|].
  unfold BaseInterchainDenom. intros Hp Heq.
  assert (Hp' : mapIndex symbolToChainDenom (Base p') <> "") by by rewrite <- Heq.
  apply Hknown in Hp, Hp'. cbn [In] in Hp, Hp'.
  destruct Hp as [Hp|[Hp|[Hp|[Hp|[Hp|[]]]]]];
    destruct Hp' as [Hp'|[Hp'|[Hp'|[Hp'|[Hp'|[]]]]]];
    rewrite <- Hp, <- Hp' in Heq |- *; try reflexivity; by vm_compute in Heq.
Qed.

End Mirror.

(** ** The exchange feed *)

Section Feed.

Lemma levels_fold (p : string) (levels : list bybit.Level) :
  forall acc : gmap string string,
    foldl (fun (m : gmap string string) l => <[bybit.Price l := bybit.Size l]> m) acc levels !! p
    = match last (filter (fun l => bybit.Price l = p) levels) with
      | Some l => Some (bybit.Size l)
      | None => acc !! p
      end.
Proof.
  induction levels as [|l levels IH]; intros acc; cbn [foldl]; [done|].
  rewrite IH, filter_cons.
  destruct (decide (bybit.Price l = p)) as [<-|Hne].
  - rewrite last_cons. destruct (last (filter _ levels)); [done|].
    by rewrite lookup_insert_eq.
  - destruct (last (filter _ levels)); [done|]. by rewrite lookup_insert_ne.
Qed.

(** X20: the book parsed from a message of the exchange carries the symbol
    of the message and, on each side and at each price, the size of the
    last level of the message at that price; a price the message does not
    mention has no level. *)
Theorem parseBybitOrderbook_last_level_wins (data : bybit.V5WebsocketPublicOrderBookData)
    (p : string) :
  osmocexfillertypes.Symbol (bybit.parseBybitOrderbook data) = bybit.Symbol data
  /\ osmocexfillertypes.bids (bybit.parseBybitOrderbook data) !! p
     = bybit.Size <$> last (filter (fun l => bybit.Price l = p) (bybit.Bids data))
  /\ osmocexfillertypes.asks (bybit.parseBybitOrderbook data) !! p
     = bybit.Size <$> last (filter (fun l => bybit.Price l = p) (bybit.Asks data)).
Proof.
  unfold bybit.parseBybitOrderbook. cbn. split_and!; [done| |].
  - rewrite levels_fold. by destruct (last _).
  - rewrite levels_fold. by destruct (last _).
Qed.

End Feed.

(** ** More of the block orchestrator and of the feed *)

Section Taxonomy.
Context {World Prices : Type} (o : Externals World Prices).

Local Abbreviation keeps := (respects (World := World) anyEvent anyTx).

#[local] Hint Resolve tryValidate_keeps fillImmediate_keeps
  computePerfectArbAmountIfExists_keeps processOrderBook_keeps tryFill_keeps
  fillWithFallback_keeps : frames.

(** X21: the emptiness test of [tryFill] looks at the batch before it is
    ranked: when the batch is not empty and the ranking filters every
    message away, the simulation is still asked, for no message at all. *)
Theorem tryFill_simulates_a_batch_ranked_empty (ctx : BlockCtx Prices) (st : State World) :
  txctx.GetSDKMsgs (txCtx st) <> [] ->
  extRank o (txMsgs (txCtx st)) = [] ->
  exists err st' evs,
    tryFill o ctx st = Some (err, st')
    /\ events st' = events st ++ evs
    /\ simulated evs = [[]]
    /\ txctx.GetMsgs (txCtx st') = [].
Proof.
  intros Hbatch Hrank. unfold tryFill. unfold bind at 1, GetTxCtx.
  destruct (txctx.GetSDKMsgs (txCtx st)) as [|m ms]; [done|].
  cbn [length Nat.eqb].
  unfold bind at 1, onTxCtx. unfold bind at 1. unfold bind at 1, simulateMsgs, call.
  cbn [world txCtx events atomicBool].
  unfold txctx.GetSDKMsgs, txctx.RankAndFilterMsgs. cbn [txMsgs]. rewrite Hrank. cbn [map].
  destruct (extSimulateMsgs o [] (world st)) as [[gas|e] w1].
  - unfold bind at 1, onTxCtx. unfold bind at 1. unfold bind at 1, executeTx, call.
    cbn [world txCtx events atomicBool].
    destruct (extExecuteTx o _ _ _ w1) as [[resp|e] w2];
      eexists _, _, [EvSimulate []; EvExecute _];
      (split; [reflexivity|]); cbn; rewrite <- app_assoc; by split_and!.
  - eexists _, _, [EvSimulate []]. split; [reflexivity|]. by split_and!.
Qed.

Lemma fillWithFallback_error_is_logged (ctx : BlockCtx Prices) (st st' : State World) e :
  fillWithFallback o ctx st = Some (Some e, st') ->
  exists evs, events st' = events st ++ evs /\ In (EvLog Error "failed to fill") evs.
Proof.
  intros Hrun.
  destruct (tryFill_keeps o ctx st) as (r & st1 & Hfill & _ & _ & evs1 & Hev1 & _).
  destruct r as [e1|].
  - destruct (Nat.eqb_spec (length (txctx.GetMsgs (txCtx st))) 1) as [Hone|Hmany].
    + unfold fillWithFallback in Hrun. unfold bind at 1, GetTxCtx in Hrun.
      unfold bind at 1 in Hrun. rewrite Hfill in Hrun.
      apply Nat.eqb_eq in Hone. rewrite Hone in Hrun. cbn in Hrun.
      injection Hrun as _ <-. cbn. exists (evs1 ++ [EvLog Error "failed to fill"]).
      rewrite Hev1, <- app_assoc. split; [done|]. rewrite in_app_iff. cbn. tauto.
    + destruct (fillWithFallback_failures_not_propagated o ctx st st1 e1 Hfill Hmany)
        as (st'' & Hrun').
      rewrite Hrun in Hrun'. discriminate.
  - unfold fillWithFallback in Hrun. unfold bind at 1, GetTxCtx in Hrun.
    unfold bind at 1 in Hrun. rewrite Hfill in Hrun. cbn in Hrun. discriminate.
Qed.

Lemma processBlockLocked_error_taxonomy fuel blockHeight obs (st st' : State World) e :
  (15 < fuel)%nat ->
  processBlockLocked o fuel blockHeight obs st = Some (Some e, st') ->
  exists evs,
    events st' = events st ++ evs
    /\ (In (EvLog Error "failed to fill") evs
        \/ (fillableQueries evs = [] /\ validations evs = []
            /\ simulated evs = [] /\ executed evs = [])).
Proof.
  intros Hfuel. unfold processBlockLocked. unfold bind at 1, call.
  destruct (extAllBalances o (world st)) as [[balances|e1] w1].
  2:{ intros [= <- <-]. exists [EvAllBalances]. split; [done|]. by right. }
  unfold bind at 1. cbn [world].
  destruct (extGetPrices o (getUniqueOrderbookDenoms o obs) w1) as [[prices|e2] w2].
  2:{ intros [= <- <-]. exists [EvAllBalances; EvGetPrices (getUniqueOrderbookDenoms o obs)].
      split; [by rewrite <- app_assoc | by right]. }
  unfold bind at 1, blockctxNew. unfold bind at 1, call. cbn [world].
  destruct (extGasPrice o w2) as [[gasPrice|e3] w3].
  2:{ intros [= <- <-].
      exists [EvAllBalances; EvGetPrices (getUniqueOrderbookDenoms o obs); EvGasPrice].
      split; [by rewrite <- !app_assoc | by right]. }
  unfold bind at 1, onTxCtx. unfold ret at 1. cbn [world atomicBool txCtx events].
  set (ctx := mkBlockCtx balances prices gasPrice blockHeight).
  set (st0 := mkState _ _ _ _).
  set (fanOut := goEach obs _).
  assert (HfanOut : keeps fanOut) by (subst fanOut; frame_auto).
  destruct (HfanOut st0) as (results & s1 & Hrun1 & _ & _ & evs1 & Hev1 & _).
  unfold bind at 1. rewrite Hrun1.
  set (collect := forEach results _).
  assert (Hcollect : keeps collect) by (subst collect; frame_auto).
  destruct (Hcollect s1) as ([] & s2 & Hrun2 & _ & _ & evs2 & Hev2 & _).
  unfold bind at 1. rewrite Hrun2.
  intros Hfill. apply fillWithFallback_error_is_logged in Hfill as (evs3 & Hev3 & Hlog).
  exists ([EvAllBalances; EvGetPrices (getUniqueOrderbookDenoms o obs); EvGasPrice]
          ++ evs1 ++ evs2 ++ evs3).
  split.
  - rewrite Hev3, Hev2, Hev1. subst st0. cbn. by rewrite <- !app_assoc.
  - left. rewrite !in_app_iff. tauto.
Qed.

(** X22: what happens to a single pool never makes [ProcessEndBlock] fail.
    When it returns a non-nil error, either the failure of a one-message
    batch was logged, or the block was given up before any pool was looked
    at: no fillable orders were queried and nothing was validated,
    simulated or executed. *)
Theorem ProcessEndBlock_error_taxonomy fuel blockHeight upd (st st' : State World) e :
  (15 < fuel)%nat ->
  ProcessEndBlock o fuel blockHeight upd st = Some (Some e, st') ->
  exists evs,
    events st' = events st ++ evs
    /\ (In (EvLog Error "failed to fill") evs
        \/ (fillableQueries evs = [] /\ validations evs = []
            /\ simulated evs = [] /\ executed evs = [])).
Proof.
  intros Hfuel. unfold ProcessEndBlock. unfold bind at 1, call.
  destruct (extGetAllCanonicalOrderbookPoolIDs o (world st)) as [[obs|e0] w].
  2:{ intros [= <- <-].
      exists [EvGetCanonical; EvLog Error "failed to get all canonical orderbook pool IDs"].
      split; [cbn; by rewrite <- app_assoc | by right]. }
  set (st1 := mkState _ _ _ _).
  destruct (fetchTicksForModifiedOrderbooks_quiet o upd obs st1)
    as (terr & st2 & Hticks & Hflag2 & Htx2 & evs2 & Hev2 & Hquiet).
  unfold bind at 1. rewrite Hticks.
  assert (Hq : fillableQueries evs2 = [] /\ validations evs2 = []
               /\ simulated evs2 = [] /\ executed evs2 = []).
  { clear -Hquiet. induction Hquiet as [|ev evs Hev _ IH]; [done|].
    destruct ev; try done. }
  unfold bind at 1, CompareAndSwap.
  destruct (Bool.eqb (atomicBool st2) false); cbn [negb]; [|discriminate].
  unfold bind at 1.
  destruct (processBlockLocked o fuel blockHeight obs _) as [[err st3]|] eqn:Hrun;
    [|discriminate].
  cbn. intros [= -> <-]. cbn.
  apply processBlockLocked_error_taxonomy in Hrun as (evs3 & Hev3 & Hcases); [|done].
  cbn in Hev3. exists (EvGetCanonical :: evs2 ++ evs3). split.
  - rewrite Hev3, Hev2. subst st1. cbn. by rewrite <- !app_assoc.
  - destruct Hcases as [Hlog|(H1 & H2 & H3 & H4)].
    + left. right. rewrite in_app_iff. by right.
    + right. destruct Hq as (Q1 & Q2 & Q3 & Q4). cbn.
      unfold fillableQueries, validations, simulated, executed in *.
      rewrite !omap_app, Q1, Q2, Q3, Q4, H1, H2, H3, H4. done.
Qed.

End Taxonomy.

Section FeedUpdate.

Lemma bid_levels_update (p : string) (levels : list bybit.Level) :
  forall ob : osmocexfillertypes.OrderbookData,
    let ob' := foldl (fun orderbook bid =>
                        if String.eqb (bybit.Size bid) "0"
                        then osmocexfillertypes.RemoveBid (bybit.Price bid) orderbook
                        else osmocexfillertypes.SetBid (bybit.Price bid) (bybit.Size bid)
                                                       orderbook)
                     ob levels in
    osmocexfillertypes.asks ob' = osmocexfillertypes.asks ob
    /\ osmocexfillertypes.Symbol ob' = osmocexfillertypes.Symbol ob
    /\ osmocexfillertypes.bids ob' !! p
       = match last (filter (fun l => bybit.Price l = p) levels) with
         | Some l => if String.eqb (bybit.Size l) "0" then None else Some (bybit.Size l)
         | None => osmocexfillertypes.bids ob !! p
         end.
Proof.
  induction levels as [|l levels IH]; intros ob; cbn [foldl]; [done|].
  cbn zeta in *. destruct (IH (if String.eqb (bybit.Size l) "0"
                               then osmocexfillertypes.RemoveBid (bybit.Price l) ob
                               else osmocexfillertypes.SetBid (bybit.Price l) (bybit.Size l) ob))
    as (Ha & Hs & Hb).
  rewrite Ha, Hs, Hb, filter_cons. split_and!.
  - by destruct (String.eqb _ _).
  - by destruct (String.eqb _ _).
  - destruct (decide (bybit.Price l = p)) as [<-|Hne].
    + rewrite last_cons. destruct (last (filter _ levels)); [done|].
      destruct (String.eqb _ _); cbn; [by rewrite lookup_delete_eq | by rewrite lookup_insert_eq].
    + destruct (last (filter _ levels)); [done|].
      destruct (String.eqb _ _); cbn;
        [by rewrite lookup_delete_ne | by rewrite lookup_insert_ne].
Qed.

Lemma ask_levels_update (p : string) (levels : list bybit.Level) :
  forall ob : osmocexfillertypes.OrderbookData,
    let ob' := foldl (fun orderbook ask =>
                        if String.eqb (bybit.Size ask) "0"
                        then osmocexfillertypes.RemoveAsk (bybit.Price ask) orderbook
                        else osmocexfillertypes.SetAsk (bybit.Price ask) (bybit.Size ask)
                                                       orderbook)
                     ob levels in
    osmocexfillertypes.bids ob' = osmocexfillertypes.bids ob
    /\ osmocexfillertypes.Symbol ob' = osmocexfillertypes.Symbol ob
    /\ osmocexfillertypes.asks ob' !! p
       = match last (filter (fun l => bybit.Price l = p) levels) with
         | Some l => if String.eqb (bybit.Size l) "0" then None else Some (bybit.Size l)
         | None => osmocexfillertypes.asks ob !! p
         end.
Proof.
  induction levels as [|l levels IH]; intros ob; cbn [foldl]; [done|].
  cbn zeta in *. destruct (IH (if String.eqb (bybit.Size l) "0"
                               then osmocexfillertypes.RemoveAsk (bybit.Price l) ob
                               else osmocexfillertypes.SetAsk (bybit.Price l) (bybit.Size l) ob))
    as (Hb & Hs & Ha).
  rewrite Ha, Hs, Hb, filter_cons. split_and!.
  - by destruct (String.eqb _ _).
  - by destruct (String.eqb _ _).
  - destruct (decide (bybit.Price l = p)) as [<-|Hne].
    + rewrite last_cons. destruct (last (filter _ levels)); [done|].
      destruct (String.eqb _ _); cbn; [by rewrite lookup_delete_eq | by rewrite lookup_insert_eq].
    + destruct (last (filter _ levels)); [done|].
      destruct (String.eqb _ _); cbn;
        [by rewrite lookup_delete_ne | by rewrite lookup_insert_ne].
Qed.

(** X23: an update of the exchange leaves the symbol alone and decides each
    price by the last level that mentions it, per side: size ["0"] deletes
    the level, any other size replaces it; a price the update does not
    mention keeps the level it had. *)
Theorem updateLevels_last_level_decides (data : bybit.V5WebsocketPublicOrderBookData)
    (ob : osmocexfillertypes.OrderbookData) (p : string) :
  osmocexfillertypes.Symbol (bybit.updateLevels data ob) = osmocexfillertypes.Symbol ob
  /\ osmocexfillertypes.bids (bybit.updateLevels data ob) !! p
     = match last (filter (fun l => bybit.Price l = p) (bybit.Bids data)) with
       | Some l => if String.eqb (bybit.Size l) "0" then None else Some (bybit.Size l)
       | None => osmocexfillertypes.bids ob !! p
       end
  /\ osmocexfillertypes.asks (bybit.updateLevels data ob) !! p
     = match last (filter (fun l => bybit.Price l = p) (bybit.Asks data)) with
       | Some l => if String.eqb (bybit.Size l) "0" then None else Some (bybit.Size l)
       | None => osmocexfillertypes.asks ob !! p
       end.
Proof.
  unfold bybit.updateLevels.
  set (ob1 := foldl _ ob (bybit.Bids data)).
  destruct (bid_levels_update p (bybit.Bids data) ob) as (Ha1 & Hs1 & Hb1). fold ob1 in Ha1, Hs1, Hb1.
  destruct (ask_levels_update p (bybit.Asks data) ob1) as (Hb2 & Hs2 & Ha2).
  cbn zeta in *. split_and!.
  - by rewrite Hs2, Hs1.
  - by rewrite Hb2, Hb1.
  - by rewrite Ha2, Ha1.
Qed.

End FeedUpdate.

(** ** Instances *)

Lemma tryValidate_probes_within_band_witness :
  exists res st' evs,
    tryValidate (Scenario.plugin false false false false) 16 Scenario.ctx 60 63
                "uusdc" "uatom" 1 (Scenario.quote 60 "uusdc" "uatom" 1 false)
                (Z.of_nat 15) Scenario.idle = Some (res, st')
    /\ events st' = events Scenario.idle ++ evs
    /\ Forall (probesWithin 60 63 "uusdc" "uatom" 1) evs.
Proof.
  apply (tryValidate_probes_within_band (Scenario.plugin false false false false) 15 16);
    lia.
Defined.

Lemma tryValidate_all_rejected_returns_baseline_witness :
  exists st',
    tryValidate (Scenario.plugin false false false false) 16 Scenario.ctx 60 63
                "uusdc" "uatom" 1 (mkMsg 1 "uusdc" "uatom" 60 60 100 false 50000 "swap")
                (Z.of_nat 15) Scenario.idle
    = Some (mkMsg 1 "uusdc" "uatom" 60 60 100 false 50000 "swap", 60, None, st').
Proof.
  apply (tryValidate_all_rejected_returns_baseline
           (Scenario.plugin false false false false) 15 16).
  - lia.
  - intros a w. cbn. destruct (0 <? a); cbn; lia.
Defined.

Lemma tryValidate_climbs_to_the_top_witness :
  exists msg st',
    tryValidate (Scenario.plugin false false false false) 16 Scenario.ctx 60 63
                "uusdc" "uatom" 1 (Scenario.quote 60 "uusdc" "uatom" 1 false)
                (Z.of_nat 15) Scenario.idle
    = Some (msg, 63, None, st').
Proof.
  destruct (tryValidate_climbs_to_the_top (Scenario.plugin false false false false) 15
              (fun a => Z.min a 62) 16 Scenario.ctx 60 63 "uusdc" "uatom" 1
              (Scenario.quote 60 "uusdc" "uatom" 1 false) Scenario.idle)
    as (msg & st' & _ & Htop).
  - lia.
  - lia.
  - intros a b Hab. lia.
  - cbn. lia.
  - intros a w Ha. cbn. destruct (Z.ltb_spec 0 a); [|lia]. by eexists _, _.
  - exists msg, st'. apply Htop. cbn. lia.
Defined.

Lemma computePerfectArbAmountIfExists_validation_count_witness :
  exists res st' mids,
    computePerfectArbAmountIfExists (Scenario.plugin false false false false) 16 Scenario.ctx
                                    60 "uusdc" "uatom" 1 Scenario.idle = Some (res, st')
    /\ validations (events st') = validations (events Scenario.idle) ++ 60 :: mids
    /\ length mids = 15%nat.
Proof.
  apply (computePerfectArbAmountIfExists_validation_count
           (Scenario.plugin false false false false) 16 Scenario.ctx 60 "uusdc" "uatom" 1
           Scenario.idle (Ok (Scenario.quote 60 "uusdc" "uatom" 1 false))
           (mkState tt false txctx.New
              [EvValidateArb 60 "uusdc" "uatom" 1
                 (Ok (Scenario.quote 60 "uusdc" "uatom" 1 false))])).
  - lia.
  - reflexivity.
Defined.

Lemma processOrderBook_error_only_from_fillable_orders_witness :
  exists st' ra rb,
    processOrderBook (Scenario.plugin false false false false) 16 Scenario.ctx
                     (mkOrderBook "uatom" "uusdc" 1 "osmo1a") Scenario.idle = Some (None, st')
    /\ In (EvValidateArb 60 "uusdc" "uatom" 1 ra) (events st')
    /\ In (EvValidateArb 0 "uatom" "uusdc" 1 rb) (events st').
Proof.
  destruct (processOrderBook_error_only_from_fillable_orders
              (Scenario.plugin false false false false) 16 Scenario.ctx
              (mkOrderBook "uatom" "uusdc" 1 "osmo1a") Scenario.idle (Ok (100, 0))
              (mkState tt false txctx.New [EvFillable 1]) ltac:(lia) eq_refl)
    as (err & st' & Hrun & Herr & ra & rb & Hask & Hbid).
  subst err. exists st', ra, rb.
  split; [exact Hrun|]. split; [exact Hask | exact Hbid].
Defined.

Lemma ProcessEndBlock_aborts_on_balance_failure_witness :
  ProcessEndBlock (Outage.plugin true false "") 16 7 {[1]} Scenario.idle
  = Some (Some "balances unavailable",
          mkState tt false txctx.New [EvGetCanonical; EvFetchTicks 1; EvAllBalances]).
Proof.
  apply (ProcessEndBlock_aborts_on_balance_failure (Outage.plugin true false "") 16 7 {[1]}
           Scenario.idle Scenario.pools tt None Outage.refreshed "balances unavailable" tt).
  - reflexivity.
  - reflexivity.
  - vm_compute. reflexivity.
  - reflexivity.
Defined.

Lemma ProcessEndBlock_aborts_on_price_failure_witness :
  ProcessEndBlock (Outage.plugin false true "") 16 7 {[1]} Scenario.idle
  = Some (Some "prices unavailable",
          mkState tt false txctx.New
            (events Outage.refreshed
             ++ [EvAllBalances;
                 EvGetPrices (getUniqueOrderbookDenoms (Outage.plugin false true "")
                                                       Scenario.pools)])).
Proof.
  apply (ProcessEndBlock_aborts_on_price_failure (Outage.plugin false true "") 16 7 {[1]}
           Scenario.idle Scenario.pools tt None Outage.refreshed
           [("uatom", 1000); ("uosmo", 1000); ("uusdc", 60)] tt "prices unavailable" tt).
  - reflexivity.
  - reflexivity.
  - vm_compute. reflexivity.
  - reflexivity.
  - reflexivity.
Defined.

Lemma processBlockLocked_processes_eligible_pools_witness :
  exists err st',
    processBlockLocked (Outage.plugin false false "uosmo") 16 7 Scenario.pools Scenario.idle
      = Some (err, st')
    /\ fillableQueries (events st') = [1].
Proof.
  destruct (processBlockLocked_processes_eligible_pools (Outage.plugin false false "uosmo")
              16 7 Scenario.pools Scenario.idle
              [("uatom", 1000); ("uosmo", 1000); ("uusdc", 60)] tt tt tt 25 tt
              ltac:(lia) eq_refl eq_refl eq_refl)
    as (err & st' & Hrun & Hq).
  exists err, st'. split; [exact Hrun|]. rewrite Hq. reflexivity.
Defined.

Lemma getUniqueOrderbookDenoms_order_irrelevant_witness :
  getUniqueOrderbookDenoms (Scenario.plugin false false false false)
    [mkOrderBook "uatom" "uusdc" 1 "osmo1a"; mkOrderBook "uosmo" "uusdc" 2 "osmo1b"]
  = getUniqueOrderbookDenoms (Scenario.plugin false false false false)
    [mkOrderBook "uosmo" "uusdc" 2 "osmo1b"; mkOrderBook "uatom" "uusdc" 1 "osmo1a"].
Proof.
  apply (getUniqueOrderbookDenoms_order_irrelevant (Scenario.plugin false false false false)).
  apply perm_swap.
Defined.

Lemma Remove_drops_one_level_witness :
  osmocexfillertypes.RemoveBid "101.5"
    (osmocexfillertypes.NewOrderbookData "BTCUSDT" {[ "100.0" := "2" ]} ∅)
  = osmocexfillertypes.NewOrderbookData "BTCUSDT" {[ "100.0" := "2" ]} ∅.
Proof.
  apply (Remove_drops_one_level "101.5"
           (osmocexfillertypes.NewOrderbookData "BTCUSDT" {[ "100.0" := "2" ]} ∅)).
  vm_compute. reflexivity.
Defined.

Lemma Set_and_Remove_compose_witness :
  osmocexfillertypes.RemoveBid "101.5"
    (osmocexfillertypes.SetBid "101.5" "3"
       (osmocexfillertypes.NewOrderbookData "BTCUSDT" {[ "100.0" := "2" ]} ∅))
  = osmocexfillertypes.NewOrderbookData "BTCUSDT" {[ "100.0" := "2" ]} ∅.
Proof.
  apply (Set_and_Remove_compose "101.5" "100.0" "3" "2"
           (osmocexfillertypes.NewOrderbookData "BTCUSDT" {[ "100.0" := "2" ]} ∅)).
  vm_compute. reflexivity.
Defined.

Lemma BaseInterchainDenom_known_symbols_witness :
  osmocexfillertypes.Base (osmocexfillertypes.mkPair "BTC" "USDT")
  = osmocexfillertypes.Base (osmocexfillertypes.mkPair "BTC" "USDC").
Proof.
  apply (BaseInterchainDenom_known_symbols (osmocexfillertypes.mkPair "BTC" "USDT")
           (osmocexfillertypes.mkPair "BTC" "USDC")).
  - discriminate.
  - reflexivity.
Defined.

Lemma tryFill_simulates_a_batch_ranked_empty_witness :
  exists err st' evs,
    tryFill (Outage.single true) Scenario.ctx Outage.loaded = Some (err, st')
    /\ events st' = events Outage.loaded ++ evs
    /\ simulated evs = [[]]
    /\ txctx.GetMsgs (txCtx st') = [].
Proof.
  apply (tryFill_simulates_a_batch_ranked_empty (Outage.single true) Scenario.ctx Outage.loaded).
  - discriminate.
  - reflexivity.
Defined.

Lemma ProcessEndBlock_error_taxonomy_witness :
  exists e st' evs,
    ProcessEndBlock (Outage.single false) 16 7 {[1]} Scenario.idle = Some (Some e, st')
    /\ events st' = events Scenario.idle ++ evs
    /\ (In (EvLog Error "failed to fill") evs
        \/ (fillableQueries evs = [] /\ validations evs = []
            /\ simulated evs = [] /\ executed evs = [])).
Proof.
  assert (Hrun : exists e st',
    ProcessEndBlock (Outage.single false) 16 7 {[1]} Scenario.idle = Some (Some e, st')).
  { vm_compute. eexists _, _. reflexivity. }
  destruct Hrun as (e & st' & Hrun).
  destruct (ProcessEndBlock_error_taxonomy (Outage.single false) 16 7 {[1]} Scenario.idle
              st' e ltac:(lia) Hrun)
    as (evs & Hev & Hcases).
  exists e, st', evs. split; [exact Hrun|]. split; [exact Hev | exact Hcases].
Defined.
